(** * Cafeteria: order management (Decorator, Factory, Strategy, Observer)

    A shallow embedding of [cafeteria.py].  Prices are Python floats, that
    is IEEE 754 binary64 numbers, and are embedded as Rocq's primitive
    floats, which are the same format with the same rounding.  Text written
    by [print] is kept as a list of events of the world the program runs in;
    exceptions are results.  Recursion is not bounded: the limit a Python
    interpreter puts on the depth of calls is not part of the model. *)

From Stdlib Require Import ZArith Floats Ascii String List Bool Lia.
From stdpp Require Import base list.
Import ListNotations.

Local Open Scope string_scope.
Local Open Scope float_scope.

(** ** Constants *)

Module Precos.
Definition ESPRESSO : float := 5.00.
Definition CAPPUCCINO : float := 8.00.
Definition LATTE : float := 7.50.
Definition LEITE : float := 1.50.
Definition CHOCOLATE : float := 2.00.
Definition CHANTILLY : float := 2.50.
End Precos.

(** ** Decorator: beverages and extra ingredients *)

(** The concrete subclasses of [Bebida]: three base drinks and three
    [IngredienteDecorator]s, each holding the drink it wraps in [_bebida]. *)
Inductive Bebida : Type :=
| Espresso
| Cappuccino
| Latte
| Leite (_bebida : Bebida)
| Chocolate (_bebida : Bebida)
| Chantilly (_bebida : Bebida).

Fixpoint descricao (self : Bebida) : string :=
  match self with
  | Espresso => "Espresso"
  | Cappuccino => "Cappuccino"
  | Latte => "Latte"
  | Leite b => descricao b ++ " + Leite"
  | Chocolate b => descricao b ++ " + Chocolate"
  | Chantilly b => descricao b ++ " + Chantilly"
  end.

Fixpoint preco (self : Bebida) : float :=
  match self with
  | Espresso => Precos.ESPRESSO
  | Cappuccino => Precos.CAPPUCCINO
  | Latte => Precos.LATTE
  | Leite b => preco b + Precos.LEITE
  | Chocolate b => preco b + Precos.CHOCOLATE
  | Chantilly b => preco b + Precos.CHANTILLY
  end.


(** ** Python strings

    A [str] is embedded as the Rocq [string] of its UTF-8 encoding, one
    [ascii] for each byte: this is what a string literal of this file
    holds.  Equality, concatenation and emptiness of the texts are those
    of their encodings.  The operations that look at characters ([strip],
    [len], a slice) work on the encoding character by character: a
    character is one byte below 128, or a lead byte followed by bytes of
    the form 10xxxxxx. *)

Module Str.

(** White space of one byte: tab, line feed, vertical tab, form feed,
    carriage return, the four separators FS, GS, RS and US, and the
    space. *)
Definition isspace (c : ascii) : bool :=
  let n := nat_of_ascii c in
  ((9 <=? n) && (n <=? 13) || (28 <=? n) && (n <=? 32))%nat.

(** White space of two bytes: U+0085 (C2 85) and U+00A0 (C2 A0). *)
Definition isspace2 (c d : ascii) : bool :=
  let c := nat_of_ascii c in
  let d := nat_of_ascii d in
  ((c =? 194) && ((d =? 133) || (d =? 160)))%nat.

(** White space of three bytes: U+1680 (E1 9A 80), U+2000 to U+200A
    (E2 80 80 to E2 80 8A), U+2028, U+2029 and U+202F (E2 80 A8, A9 and
    AF), U+205F (E2 81 9F) and U+3000 (E3 80 80).  With the two above,
    these are the characters [str.strip()] removes. *)
Definition isspace3 (c d e : ascii) : bool :=
  let c := nat_of_ascii c in
  let d := nat_of_ascii d in
  let e := nat_of_ascii e in
  ((c =? 225) && (d =? 154) && (e =? 128)
   || (c =? 226) && (d =? 128)
      && ((128 <=? e) && (e <=? 138) || (e =? 168) || (e =? 169) || (e =? 175))
   || (c =? 226) && (d =? 129) && (e =? 159)
   || (c =? 227) && (d =? 128) && (e =? 128))%nat.

(** What follows the white space character [s] starts with, if it starts
    with one. *)
Definition apos_espaco (s : string) : option string :=
  match s with
  | EmptyString => None
  | String c r =>
      if isspace c then Some r
      else match r with
           | EmptyString => None
           | String d r2 =>
               if isspace2 c d then Some r2
               else match r2 with
                    | EmptyString => None
                    | String e r3 => if isspace3 c d e then Some r3 else None
                    end
           end
  end.

(** [s.lower()] on the ASCII range: A to Z become a to z.  Python lowers
    the cased characters outside ASCII too, by the tables of Unicode,
    which are not embedded: [lower] leaves every byte of 128 or more as
    it is.  The two differ on a text only where it has a cased character
    outside ASCII, and there the result of either still has a character
    outside ASCII, but for the Kelvin sign U+212A, which Python lowers to
    k.  The program lowers a text in [FabricaBebidas.criar] only, to look
    it up among keys that are ASCII and have no k, so that the lookup
    finds in both the same. *)
Definition lower_char (c : ascii) : ascii :=
  let n := nat_of_ascii c in
  if ((65 <=? n) && (n <=? 90))%nat then ascii_of_nat (n + 32) else c.

Fixpoint lower (s : string) : string :=
  match s with
  | EmptyString => EmptyString
  | String c r => String (lower_char c) (lower r)
  end.

(** [s.lstrip()]: the white space characters at the start are dropped,
    each with all its bytes. *)
Fixpoint lstrip (s : string) : string :=
  match s with
  | EmptyString => EmptyString
  | String c r =>
      if isspace c then lstrip r
      else match r with
           | EmptyString => s
           | String d r2 =>
               if isspace2 c d then lstrip r2
               else match r2 with
                    | EmptyString => s
                    | String e r3 => if isspace3 c d e then lstrip r3 else s
                    end
           end
  end.

(** [s.rstrip()]: the text is cut where what is left is white space
    only.  (The encoding of a white space character starts with no byte
    of the form 10xxxxxx, so the cut never falls inside a character.) *)
Fixpoint rstrip (s : string) : string :=
  match s with
  | EmptyString => EmptyString
  | String c r =>
      match lstrip s with
      | EmptyString => EmptyString
      | _ => String c (rstrip r)
      end
  end.

Definition strip (s : string) : string := rstrip (lstrip s).

(** Truth value of a string: [not s] holds of the empty string only. *)
Definition vazia (s : string) : bool :=
  match s with EmptyString => true | _ => false end.

(** A byte of the form 10xxxxxx, which continues a character. *)
Definition continua (c : ascii) : bool :=
  let n := nat_of_ascii c in ((128 <=? n) && (n <=? 191))%nat.

(** The number of characters: the bytes that start one. *)
Fixpoint conta (s : string) : nat :=
  match s with
  | EmptyString => 0
  | String c r => if continua c then conta r else S (conta r)
  end.

(** [len(s)] *)
Definition len (s : string) : Z := Z.of_nat (conta s).

(** [s[-n:]] for a positive [n]: the last [n] characters, or all of [s]
    when it has no more: the text from the first place that starts a
    character and has at most [n] characters after it. *)
Fixpoint ultimos (n : nat) (s : string) : string :=
  match s with
  | EmptyString => EmptyString
  | String c r =>
      if negb (continua c) && (conta s <=? n)%nat then s else ultimos n r
  end.

(** [sep.join(l)] *)
Fixpoint join (sep : string) (l : list string) : string :=
  match l with
  | [] => ""
  | [x] => x
  | x :: r => x ++ sep ++ join sep r
  end.

End Str.

(** ** Factory Method: creators of base drinks *)

Inductive BebidaFactory : Type :=
| EspressoFactory
| CappuccinoFactory
| LatteFactory.

Definition criar_bebida (self : BebidaFactory) : Bebida :=
  match self with
  | EspressoFactory => Espresso
  | CappuccinoFactory => Cappuccino
  | LatteFactory => Latte
  end.

(** ** Strategy: payment methods, with the state each one keeps *)

Inductive PagamentoStrategy : Type :=
| PagamentoCartao (_numero : string)
| PagamentoPix (_chave : string)
| PagamentoDinheiro (_valor_entregue : float).

Definition nome (self : PagamentoStrategy) : string :=
  match self with
  | PagamentoCartao _ => "Cartão de Crédito"
  | PagamentoPix _ => "PIX"
  | PagamentoDinheiro _ => "Dinheiro"
  end.

(** ** Observer: order status and observers *)

Inductive StatusPedido : Type :=
| RECEBIDO
| PREPARANDO
| PRONTO
| ENTREGUE.

Definition value (s : StatusPedido) : string :=
  match s with
  | RECEBIDO => "Recebido"
  | PREPARANDO => "Preparando"
  | PRONTO => "Pronto"
  | ENTREGUE => "Entregue"
  end.

Definition StatusPedido_eqb (a b : StatusPedido) : bool :=
  match a, b with
  | RECEBIDO, RECEBIDO | PREPARANDO, PREPARANDO
  | PRONTO, PRONTO | ENTREGUE, ENTREGUE => true
  | _, _ => false
  end.

(** The concrete observers; [__dict__] of a [NotificadorCliente] is
    [{'_nome': ...}], that of the other two is empty. *)
Inductive ObservadorPedido : Type :=
| NotificadorCliente (_nome : string)
| PainelPedidos
| SistemaMetricas.

(** ** Python values

    The values a caller may hand to a parameter that the code checks with
    [isinstance].  An order is a mutable object and is named by its
    reference in the store of the world. *)
Inductive objeto : Type :=
| ONone
| OBool (b : bool)
| OInt (n : Z)
| OFloat (f : float)
| OStr (s : string)
| OStatus (s : StatusPedido)
| OBebida (b : Bebida)
| OFabrica (f : BebidaFactory)
| OPagamento (p : PagamentoStrategy)
| OObservador (o : ObservadorPedido)
| OPedido (ref : nat).

(** [ObservadorPedido.__eq__]: [other] is an instance of the class of
    [self] and both have the same [__dict__].  No concrete observer class
    derives from another, so the instance test is equality of classes. *)
Definition ObservadorPedido_eq (self : ObservadorPedido) (other : objeto) : bool :=
  match other with
  | OObservador o =>
      match self, o with
      | NotificadorCliente n1, NotificadorCliente n2 => String.eqb n1 n2
      | PainelPedidos, PainelPedidos => true
      | SistemaMetricas, SistemaMetricas => true
      | _, _ => false
      end
  | _ => false
  end.

(** [x in l] for a list of observers: some element equals [x]. *)
Definition contem (x : objeto) (l : list ObservadorPedido) : bool :=
  existsb (fun e => ObservadorPedido_eq e x) l.

(** [l.remove(x)]: drops the first element equal to [x] (the caller has
    checked that there is one). *)
Fixpoint remove (x : objeto) (l : list ObservadorPedido) : list ObservadorPedido :=
  match l with
  | [] => []
  | e :: r => if ObservadorPedido_eq e x then r else e :: remove x r
  end.

(** ** The order object *)

Module Pedido.
Record t : Type := Build {
  id : Z;
  cliente : string;
  itens : list Bebida;
  _status : StatusPedido;
  _observers : list ObservadorPedido;
  _pagamento : option PagamentoStrategy
}.
End Pedido.

(** ** Effects: exceptions, printed lines and the world *)

Inductive excecao : Type :=
| ValueError (msg : string)
| TypeError (msg : string)
| RuntimeError (msg : string).

(** A printed line, kept as the pieces of its f-string: literal text, an
    amount formatted with [:.2f], an integer, and the clock reading of
    [datetime.now().strftime('%H:%M:%S')]. *)
Inductive pedaco : Type :=
| Texto (s : string)
| Reais (v : float)
| Inteiro (n : Z)
| Agora.

Definition linha : Type := list pedaco.

(** What a run leaves behind, oldest first: the lines printed, and a record
    of every call of an observer's [atualizar] with the order it was given
    (an observer may stay silent, its call is recorded all the same). *)
Inductive evento : Type :=
| Print (l : linha)
| Atualizar (observer : ObservadorPedido) (pedido : nat).

Record Mundo : Type := Build_Mundo {
  Pedido_contador : Z;          (* the class attribute [Pedido._contador] *)
  objetos : list Pedido.t;      (* the orders created so far, by reference *)
  eventos : list evento
}.

Definition mundo_inicial : Mundo :=
  {| Pedido_contador := 0; objetos := []; eventos := [] |}.

Inductive resultado (A : Type) : Type :=
| Retorna (a : A)
| Levanta (e : excecao)
| SemObjeto.     (* a reference to no object: Python has no such reference *)
Arguments Retorna {A} a.
Arguments Levanta {A} e.
Arguments SemObjeto {A}.

Definition M (A : Type) : Type := Mundo -> resultado A * Mundo.

Definition ret {A} (a : A) : M A := fun w => (Retorna a, w).

Definition bind {A B} (m : M A) (k : A -> M B) : M B :=
  fun w =>
    match m w with
    | (Retorna a, w') => k a w'
    | (Levanta e, w') => (Levanta e, w')
    | (SemObjeto, w') => (SemObjeto, w')
    end.

Declare Scope cafe_scope.
Delimit Scope cafe_scope with cafe.
Notation "x <- m ;; k" := (bind m (fun x => k))
  (at level 20, m at level 99, k at level 200, only parsing) : cafe_scope.
Notation "m ;; k" := (bind m (fun _ => k))
  (at level 100, k at level 200, right associativity, only parsing) : cafe_scope.
Local Open Scope cafe_scope.

Definition raise {A} (e : excecao) : M A := fun w => (Levanta e, w).

(** The world with more events at the end of its trace. *)
Definition com_eventos (l : list evento) (w : Mundo) : Mundo :=
  {| Pedido_contador := Pedido_contador w;
     objetos := objetos w;
     eventos := eventos w ++ l |}.

(** The world with the object behind [ref] replaced. *)
Definition com_objeto (ref : nat) (p : Pedido.t) (w : Mundo) : Mundo :=
  {| Pedido_contador := Pedido_contador w;
     objetos := <[ref := p]> (objetos w);
     eventos := eventos w |}.

Definition registrar (e : evento) : M unit :=
  fun w => (Retorna tt, com_eventos [e] w).

Definition print (l : linha) : M unit := registrar (Print l).

(** Reading and writing the object behind a reference. *)
Definition ler (ref : nat) : M Pedido.t :=
  fun w => match objetos w !! ref with
           | Some p => (Retorna p, w)
           | None => (SemObjeto, w)
           end.

Definition escrever (ref : nat) (p : Pedido.t) : M unit :=
  fun w => match objetos w !! ref with
           | Some _ => (Retorna tt, com_objeto ref p w)
           | None => (SemObjeto, w)
           end.

Fixpoint para_cada {A} (l : list A) (corpo : A -> M unit) : M unit :=
  match l with
  | [] => ret tt
  | x :: r => corpo x ;; para_cada r corpo
  end.

(** ** Decorator: construction *)

(** [IngredienteDecorator.__init__], shared by the three ingredients;
    [classe] is the subclass being instantiated. *)
Definition IngredienteDecorator_init (classe : Bebida -> Bebida) (bebida : objeto)
  : resultado Bebida :=
  match bebida with
  | OBebida b => Retorna (classe b)
  | _ => Levanta (TypeError "O parâmetro deve ser uma instância de Bebida")
  end.

(** ** Factory *)

Definition _log_preparacao (bebida : Bebida) : M unit :=
  print [Texto ("Preparando: " ++ descricao bebida)].

Definition preparar_pedido (self : BebidaFactory) : M Bebida :=
  let bebida := criar_bebida self in
  _log_preparacao bebida ;;
  ret bebida.

Module FabricaBebidas.

(** The class attribute [_fabricas], a dict: its keys in insertion order. *)
Definition _fabricas : list (string * BebidaFactory) :=
  [ ("espresso", EspressoFactory);
    ("cappuccino", CappuccinoFactory);
    ("latte", LatteFactory) ].

Fixpoint get (k : string) (d : list (string * BebidaFactory)) : option BebidaFactory :=
  match d with
  | [] => None
  | (k', v) :: r => if String.eqb k' k then Some v else get k r
  end.

Definition keys (d : list (string * BebidaFactory)) : list string := map fst d.

Definition criar (tipo : string) : M Bebida :=
  if Str.vazia tipo || Str.vazia (Str.strip tipo) then
    raise (ValueError "Tipo de bebida não pode ser vazio")
  else
    let tipo_normalizado := Str.strip (Str.lower tipo) in
    match get tipo_normalizado _fabricas with
    | None =>
        let tipos_validos := Str.join ", " (keys _fabricas) in
        raise (ValueError ("Tipo de bebida desconhecido: '" ++ tipo ++ "'. "
                           ++ "Tipos válidos: " ++ tipos_validos))
    | Some fabrica => preparar_pedido fabrica
    end.

Definition tipos_disponiveis : list string := keys _fabricas.

End FabricaBebidas.

(** ** Strategy: construction and payment *)

Definition PagamentoCartao_init (numero_cartao : string) : resultado PagamentoStrategy :=
  if Str.vazia numero_cartao || (Str.len numero_cartao <? 4)%Z then
    Levanta (ValueError "Número do cartão inválido")
  else Retorna (PagamentoCartao numero_cartao).

Definition PagamentoPix_init (chave_pix : string) : resultado PagamentoStrategy :=
  if Str.vazia chave_pix || Str.vazia (Str.strip chave_pix) then
    Levanta (ValueError "Chave PIX não pode ser vazia")
  else Retorna (PagamentoPix (Str.strip chave_pix)).

Definition PagamentoDinheiro_init (valor_entregue : float) : resultado PagamentoStrategy :=
  if valor_entregue <=? 0 then
    Levanta (ValueError "Valor entregue deve ser positivo")
  else Retorna (PagamentoDinheiro valor_entregue).

(** [_log_pagamento] prints its message in the three classes. *)
Definition _log_pagamento (mensagem : linha) : M unit := print mensagem.

(** [pagar]; [a >= b] on floats is [b <=? a], and [a > b] is [b <? a]. *)
Definition pagar (self : PagamentoStrategy) (valor : float) : M bool :=
  match self with
  | PagamentoCartao _numero =>
      if valor <=? 0 then raise (ValueError "Valor de pagamento deve ser positivo")
      else
        _log_pagamento [Texto "Processando pagamento de R$"; Reais valor;
                        Texto " no cartão **"; Texto (Str.ultimos 4 _numero)] ;;
        ret true
  | PagamentoPix _chave =>
      if valor <=? 0 then raise (ValueError "Valor de pagamento deve ser positivo")
      else
        _log_pagamento [Texto "PIX de R$"; Reais valor;
                        Texto " enviado para "; Texto _chave] ;;
        _log_pagamento [Texto "QR Code gerado! Aguardando confirmação..."] ;;
        ret true
  | PagamentoDinheiro _valor_entregue =>
      if valor <=? 0 then raise (ValueError "Valor de pagamento deve ser positivo")
      else if valor <=? _valor_entregue then
        let troco := _valor_entregue - valor in
        _log_pagamento [Texto "Pagamento em dinheiro: R$"; Reais _valor_entregue] ;;
        (if 0 <? troco then _log_pagamento [Texto "Troco: R$"; Reais troco]
         else ret tt) ;;
        ret true
      else
        _log_pagamento [Texto "Valor insuficiente! Faltam R$";
                        Reais (valor - _valor_entregue)] ;;
        ret false
  end.

(** ** Observer: construction and reaction *)

Definition NotificadorCliente_init (nome_cliente : string) : resultado ObservadorPedido :=
  if Str.vazia nome_cliente || Str.vazia (Str.strip nome_cliente) then
    Levanta (ValueError "Nome do cliente não pode ser vazio")
  else Retorna (NotificadorCliente (Str.strip nome_cliente)).

(** The property [Pedido.status] (getter) and the attribute [Pedido.id],
    read through the reference. *)
Definition status (self : nat) : M StatusPedido :=
  p <- ler self ;; ret (Pedido._status p).

Definition id_de (self : nat) : M Z :=
  p <- ler self ;; ret (Pedido.id p).

Definition atualizar (self : ObservadorPedido) (pedido : nat) : M unit :=
  match self with
  | NotificadorCliente _nome =>
      s <- status pedido ;;
      if StatusPedido_eqb s PRONTO then
        i <- id_de pedido ;;
        print [Texto ("📱 SMS para " ++ _nome ++ ": Seu pedido #"); Inteiro i;
               Texto " está PRONTO!"]
      else
        s' <- status pedido ;;
        if StatusPedido_eqb s' PREPARANDO then
          i <- id_de pedido ;;
          print [Texto ("📱 SMS para " ++ _nome ++ ": Seu pedido #"); Inteiro i;
                 Texto " está sendo preparado"]
        else ret tt
  | PainelPedidos =>
      i <- id_de pedido ;;
      s <- status pedido ;;
      print [Texto "📺 Painel atualizado: Pedido #"; Inteiro i;
             Texto (" -> " ++ value s)]
  | SistemaMetricas =>
      s <- status pedido ;;
      if StatusPedido_eqb s ENTREGUE then
        i <- id_de pedido ;;
        print [Texto "📊 Métrica registrada: Pedido #"; Inteiro i;
               Texto " concluído às "; Agora]
      else ret tt
  end.

(** ** The order: subject of the observers, context of the strategy *)

Definition Pedido_init (cliente : string) : M nat :=
  if Str.vazia cliente || Str.vazia (Str.strip cliente) then
    raise (ValueError "Nome do cliente não pode ser vazio")
  else
    fun w =>
      let contador := (Pedido_contador w + 1)%Z in
      let self := {| Pedido.id := contador;
                     Pedido.cliente := Str.strip cliente;
                     Pedido.itens := [];
                     Pedido._status := RECEBIDO;
                     Pedido._observers := [];
                     Pedido._pagamento := None |} in
      (Retorna (length (objetos w)),
       {| Pedido_contador := contador;
          objetos := objetos w ++ [self];
          eventos := eventos w |}).

Definition com_status (s : StatusPedido) (p : Pedido.t) : Pedido.t :=
  {| Pedido.id := Pedido.id p; Pedido.cliente := Pedido.cliente p;
     Pedido.itens := Pedido.itens p; Pedido._status := s;
     Pedido._observers := Pedido._observers p;
     Pedido._pagamento := Pedido._pagamento p |}.

Definition com_observers (l : list ObservadorPedido) (p : Pedido.t) : Pedido.t :=
  {| Pedido.id := Pedido.id p; Pedido.cliente := Pedido.cliente p;
     Pedido.itens := Pedido.itens p; Pedido._status := Pedido._status p;
     Pedido._observers := l;
     Pedido._pagamento := Pedido._pagamento p |}.

Definition com_itens (l : list Bebida) (p : Pedido.t) : Pedido.t :=
  {| Pedido.id := Pedido.id p; Pedido.cliente := Pedido.cliente p;
     Pedido.itens := l; Pedido._status := Pedido._status p;
     Pedido._observers := Pedido._observers p;
     Pedido._pagamento := Pedido._pagamento p |}.

Definition com_pagamento (e : option PagamentoStrategy) (p : Pedido.t) : Pedido.t :=
  {| Pedido.id := Pedido.id p; Pedido.cliente := Pedido.cliente p;
     Pedido.itens := Pedido.itens p; Pedido._status := Pedido._status p;
     Pedido._observers := Pedido._observers p;
     Pedido._pagamento := e |}.

Definition _notificar (self : nat) : M unit :=
  p <- ler self ;;
  para_cada (Pedido._observers p)
    (fun observer => registrar (Atualizar observer self) ;; atualizar observer self).

(** The setter of the property [status]. *)
Definition set_status (self : nat) (novo_status : objeto) : M unit :=
  match novo_status with
  | OStatus s =>
      p <- ler self ;;
      escrever self (com_status s p) ;;
      _notificar self
  | _ => raise (TypeError "Status deve ser uma instância de StatusPedido")
  end.

Definition adicionar_observer (self : nat) (observer : objeto) : M unit :=
  match observer with
  | OObservador o =>
      p <- ler self ;;
      if negb (contem observer (Pedido._observers p)) then
        escrever self (com_observers (Pedido._observers p ++ [o]) p)
      else ret tt
  | _ => raise (TypeError "Observer deve implementar ObservadorPedido")
  end.

Definition remover_observer (self : nat) (observer : objeto) : M unit :=
  p <- ler self ;;
  if contem observer (Pedido._observers p) then
    escrever self (com_observers (remove observer (Pedido._observers p)) p)
  else ret tt.

Definition adicionar_item (self : nat) (bebida : objeto) : M unit :=
  match bebida with
  | OBebida b =>
      p <- ler self ;;
      escrever self (com_itens (Pedido.itens p ++ [b]) p)
  | _ => raise (TypeError "Item deve ser uma instância de Bebida")
  end.

(** Python's [sum]: the items added from left to right, starting at 0.
    (The sum of no item is the integer 0, kept here as the float zero it
    equals.  Interpreters that compensate the rounding errors of a sum of
    floats give the same number wherever no addition rounds, which is the
    case of the sums of prices, see [sum_exato].) *)
Definition sum (l : list float) : float := fold_left PrimFloat.add l 0.

Definition total (self : nat) : M float :=
  p <- ler self ;; ret (sum (map preco (Pedido.itens p))).

Definition definir_pagamento (self : nat) (estrategia : objeto) : M unit :=
  match estrategia with
  | OPagamento e =>
      p <- ler self ;;
      escrever self (com_pagamento (Some e) p)
  | _ => raise (TypeError "Estratégia deve implementar PagamentoStrategy")
  end.

Definition processar_pagamento (self : nat) : M bool :=
  p <- ler self ;;
  match Pedido._pagamento p with
  | None => raise (RuntimeError "Nenhuma forma de pagamento definida!")
  | Some pagamento =>
      p' <- ler self ;;
      match Pedido.itens p' with
      | [] => raise (RuntimeError "Pedido vazio! Adicione itens antes de pagar.")
      | _ :: _ =>
          valor <- total self ;;
          pagar pagamento valor
      end
  end.

(** ** Runs of a program

    What a caller can do to the world: one call of a constructor or method
    per step.  A caller that catches an exception goes on from the world
    the failed call left. *)
Inductive operacao : Type :=
| NovoPedido (cliente : string)
| DefinirStatus (pedido : nat) (novo_status : objeto)
| AdicionarObserver (pedido : nat) (observer : objeto)
| RemoverObserver (pedido : nat) (observer : objeto)
| AdicionarItem (pedido : nat) (bebida : objeto)
| DefinirPagamento (pedido : nat) (estrategia : objeto)
| ProcessarPagamento (pedido : nat)
| Total (pedido : nat)
| Criar (tipo : string)
| Pagar (estrategia : PagamentoStrategy) (valor : float).

Definition executar (op : operacao) (w : Mundo) : Mundo :=
  match op with
  | NovoPedido cliente => snd (Pedido_init cliente w)
  | DefinirStatus pedido novo_status => snd (set_status pedido novo_status w)
  | AdicionarObserver pedido observer => snd (adicionar_observer pedido observer w)
  | RemoverObserver pedido observer => snd (remover_observer pedido observer w)
  | AdicionarItem pedido bebida => snd (adicionar_item pedido bebida w)
  | DefinirPagamento pedido estrategia => snd (definir_pagamento pedido estrategia w)
  | ProcessarPagamento pedido => snd (processar_pagamento pedido w)
  | Total pedido => snd (total pedido w)
  | Criar tipo => snd (FabricaBebidas.criar tipo w)
  | Pagar estrategia valor => snd (pagar estrategia valor w)
  end.

Definition correr (ops : list operacao) (w : Mundo) : Mundo :=
  fold_left (fun w op => executar op w) ops w.


(** ** Vocabulary of the statements *)

(** The ingredient classes, with what each one adds. *)
Inductive Ingrediente : Type := ILeite | IChocolate | IChantilly.

Definition envolver (i : Ingrediente) : Bebida -> Bebida :=
  match i with
  | ILeite => Leite
  | IChocolate => Chocolate
  | IChantilly => Chantilly
  end.

Definition acrescimo (i : Ingrediente) : float :=
  match i with
  | ILeite => Precos.LEITE
  | IChocolate => Precos.CHOCOLATE
  | IChantilly => Precos.CHANTILLY
  end.

Definition sufixo (i : Ingrediente) : string :=
  match i with
  | ILeite => " + Leite"
  | IChocolate => " + Chocolate"
  | IChantilly => " + Chantilly"
  end.

(** [decorar base [i1; ...; iN]] wraps [base] in [i1] first and [iN] last. *)
Definition decorar (base : Bebida) (l : list Ingrediente) : Bebida :=
  fold_left (fun b i => envolver i b) l base.

Definition e_status (v : objeto) : bool :=
  match v with OStatus _ => true | _ => false end.

(** The lines an observer prints when it sees an order with identifier [i]
    in status [s]. *)
Definition reacao (o : ObservadorPedido) (i : Z) (s : StatusPedido) : list evento :=
  match o, s with
  | NotificadorCliente n, PRONTO =>
      [Print [Texto ("📱 SMS para " ++ n ++ ": Seu pedido #"); Inteiro i;
              Texto " está PRONTO!"]]
  | NotificadorCliente n, PREPARANDO =>
      [Print [Texto ("📱 SMS para " ++ n ++ ": Seu pedido #"); Inteiro i;
              Texto " está sendo preparado"]]
  | NotificadorCliente _, _ => []
  | PainelPedidos, _ =>
      [Print [Texto "📺 Painel atualizado: Pedido #"; Inteiro i;
              Texto (" -> " ++ value s)]]
  | SistemaMetricas, ENTREGUE =>
      [Print [Texto "📊 Métrica registrada: Pedido #"; Inteiro i;
              Texto " concluído às "; Agora]]
  | SistemaMetricas, _ => []
  end.


(** A string of white space only (the empty string is one): each of its
    characters is one that [str.strip()] removes. *)
Fixpoint so_espacos (s : string) : bool :=
  match s with
  | EmptyString => true
  | String c r =>
      if Str.isspace c then so_espacos r
      else match r with
           | EmptyString => false
           | String d r2 =>
               if Str.isspace2 c d then so_espacos r2
               else match r2 with
                    | EmptyString => false
                    | String e r3 => if Str.isspace3 c d e then so_espacos r3 else false
                    end
           end
  end.

(** Two white space characters outside ASCII, by their bytes: the
    no-break space U+00A0 and the em space U+2003. *)
Definition nbsp : string :=
  String (ascii_of_nat 194) (String (ascii_of_nat 160) EmptyString).

Definition emsp : string :=
  String (ascii_of_nat 226) (String (ascii_of_nat 128) (String (ascii_of_nat 131) EmptyString)).

(** A float that is not negative: a zero, a positive number, or plus
    infinity (and no NaN). *)
Definition nao_negativo (x : float) : bool := 0 <=? x.

(** One round of notification of the observers [l] about the order [p]
    behind [self]: each call, followed by what the observer prints. *)
Definition rodada (self : nat) (p : Pedido.t) (l : list ObservadorPedido) : list evento :=
  flat_map (fun o => Atualizar o self :: reacao o (Pedido.id p) (Pedido._status p)) l.

(** The observers called in a list of events, in the order of the calls. *)
Fixpoint chamados (l : list evento) : list ObservadorPedido :=
  match l with
  | [] => []
  | Atualizar o _ :: l' => o :: chamados l'
  | Print _ :: l' => chamados l'
  end.

(** The sign of a specification float is clear: a zero, a positive number
    or plus infinity. *)
Definition sf_nao_negativo (x : spec_float) : Prop :=
  match x with
  | S754_zero _ => True
  | S754_finite s _ _ => s = false
  | S754_infinity s => s = false
  | S754_nan => False
  end.

(** What every run keeps true of the world: the counter is the number of
    orders created, the order created [n]th has identifier [n], and no
    order has two equal observers. *)
Definition bem_formado (w : Mundo) : Prop :=
  Pedido_contador w = Z.of_nat (length (objetos w)) /\
  forall (r : nat) p, objetos w !! r = Some p ->
    Pedido.id p = Z.of_nat (S r) /\ List.NoDup (Pedido._observers p).

(** The constructions of a run that are given an acceptable name: each
    of them creates an order. *)
Definition constroi (op : operacao) : bool :=
  match op with
  | NovoPedido cliente => negb (so_espacos cliente)
  | _ => false
  end.

Fixpoint construidos (ops : list operacao) : nat :=
  match ops with
  | [] => 0
  | op :: r => (if constroi op then 1 else 0) + construidos r
  end.

(** The identifiers of the orders of a world, in the order of creation. *)
Definition identificadores (w : Mundo) : list Z := map Pedido.id (objetos w).

(** The world after a successful [Pedido(cliente)]. *)
Definition com_pedido (cliente : string) (w : Mundo) : Mundo :=
  {| Pedido_contador := Pedido_contador w + 1;
     objetos := objetos w ++ [ {| Pedido.id := Pedido_contador w + 1;
                                  Pedido.cliente := Str.strip cliente;
                                  Pedido.itens := [];
                                  Pedido._status := RECEBIDO;
                                  Pedido._observers := [];
                                  Pedido._pagamento := None |} ];
     eventos := eventos w |}.

(** The three ways one step changes the world: it only adds events; it
    updates one order, keeping its identifier and leaving its observers
    without repetition; or it creates an order. *)
Inductive evolui (w : Mundo) : Mundo -> Prop :=
| evolui_eventos l : evolui w (com_eventos l w)
| evolui_objeto (r : nat) p q l :
    objetos w !! r = Some p ->
    Pedido.id q = Pedido.id p ->
    (List.NoDup (Pedido._observers p) -> List.NoDup (Pedido._observers q)) ->
    evolui w (com_eventos l (com_objeto r q w))
| evolui_pedido cliente : evolui w (com_pedido cliente w).

(** ** Prices as whole numbers of half reais

    Every price of [Precos] is a whole number of half reais, which binary64
    holds without rounding. *)

(** The price of a drink in half reais. *)
Fixpoint meios (b : Bebida) : Z :=
  match b with
  | Espresso => 10
  | Cappuccino => 16
  | Latte => 15
  | Leite b => meios b + 3
  | Chocolate b => meios b + 4
  | Chantilly b => meios b + 5
  end%Z.

Definition meios_acrescimo (i : Ingrediente) : Z :=
  match i with
  | ILeite => 3
  | IChocolate => 4
  | IChantilly => 5
  end%Z.

Definition soma_Z (l : list Z) : Z := fold_right Z.add 0%Z l.

(** The number of binary digits of a positive integer. *)
Definition digitos (s : Z) : Z := (Z.log2 s + 1)%Z.

(** The mantissa of the binary64 number [s/2]: [s] shifted to 53 bits. *)
Definition mantissa_meios (s : Z) : Z := (s * 2 ^ (53 - digitos s))%Z.

(** The binary64 number that is [k/2], for [0 <= k < 2^53]: its mantissa
    [m] and exponent [e] are such that [m * 2^e = k/2]. *)
Definition canonico (k : Z) : spec_float :=
  if (k =? 0)%Z then S754_zero false
  else S754_finite false (Z.to_pos (mantissa_meios k)) (digitos k - 54)%Z.

(** ** Sample worlds and values *)

(** A world with one order, [Ana]'s, observed by the three observers. *)
Definition mundo_ana : Mundo :=
  correr [NovoPedido "Ana";
          AdicionarObserver 0 (OObservador (NotificadorCliente "Ana"));
          AdicionarObserver 0 (OObservador PainelPedidos);
          AdicionarObserver 0 (OObservador SistemaMetricas)] mundo_inicial.

Definition pedido_ana : Pedido.t :=
  {| Pedido.id := 1; Pedido.cliente := "Ana"; Pedido.itens := [];
     Pedido._status := RECEBIDO;
     Pedido._observers := [NotificadorCliente "Ana"; PainelPedidos; SistemaMetricas];
     Pedido._pagamento := None |}.

(** A world with three orders: [Ana]'s has neither item nor payment,
    [Bia]'s has a payment and no item, [Caio]'s has a latte with milk and
    pays in cash with a note of ten. *)
Definition mundo_tres : Mundo :=
  correr [NovoPedido "Ana"; NovoPedido " Bia "; NovoPedido "Caio";
          DefinirPagamento 1 (OPagamento (PagamentoPix "bia@pix.com"));
          AdicionarItem 2 (OBebida (Leite Latte));
          DefinirPagamento 2 (OPagamento (PagamentoDinheiro 10))] mundo_inicial.

Definition pedido_bia : Pedido.t :=
  {| Pedido.id := 2; Pedido.cliente := "Bia"; Pedido.itens := [];
     Pedido._status := RECEBIDO; Pedido._observers := [];
     Pedido._pagamento := Some (PagamentoPix "bia@pix.com") |}.

Definition pedido_caio : Pedido.t :=
  {| Pedido.id := 3; Pedido.cliente := "Caio"; Pedido.itens := [Leite Latte];
     Pedido._status := RECEBIDO; Pedido._observers := [];
     Pedido._pagamento := Some (PagamentoDinheiro 10) |}.

(** ** The rest of the order: the summary *)

(** The line feed. *)
Definition nl : string := String (ascii_of_nat 10) EmptyString.

(** [s * n] *)
Fixpoint repete (s : string) (n : nat) : string :=
  match n with
  | O => ""
  | S n' => s ++ repete s n'
  end.

(** [enumerate(l, start)] *)
Fixpoint enumerate {A} (l : list A) (start : Z) : list (Z * A) :=
  match l with
  | [] => []
  | x :: r => (start, x) :: enumerate r (start + 1)
  end.

(** [sep.join(linhas)] for lines kept as pieces. *)
Fixpoint junta (sep : string) (linhas : list linha) : linha :=
  match linhas with
  | [] => []
  | [x] => x
  | x :: r => (x ++ Texto sep :: junta sep r)%list
  end.

(** [Pedido.resumo]; the string it returns is kept as its pieces. *)
Definition resumo (self : nat) : M linha :=
  p <- ler self ;;
  s <- status self ;;
  let linhas :=
    [ [Texto (nl ++ repete "=" 50)];
      [Texto "PEDIDO #"; Inteiro (Pedido.id p);
       Texto (" - Cliente: " ++ Pedido.cliente p)];
      [Texto ("Status: " ++ value s)];
      [Texto (repete "-" 50)] ] in
  let linhas :=
    match Pedido.itens p with
    | [] => (linhas ++ [[Texto "  (Nenhum item adicionado)"]])%list
    | _ :: _ =>
        (linhas ++ map (fun '(i, item) =>
                          [Texto "  "; Inteiro i;
                           Texto (". " ++ descricao item ++ " - R$");
                           Reais (preco item)])
                       (enumerate (Pedido.itens p) 1))%list
    end in
  t <- total self ;;
  ret (junta nl (linhas ++ [ [Texto (repete "-" 50)];
                             [Texto "TOTAL: R$"; Reais t];
                             [Texto (repete "=" 50)] ])%list).

(** ** The demonstration *)


(** [str(e)] *)
Definition mensagem (e : excecao) : string :=
  match e with
  | ValueError msg | TypeError msg | RuntimeError msg => msg
  end.



(** ** Vocabulary of the further statements *)

(** A string with no white space at either end: [s.strip()] is [s]. *)
Definition aparada (s : string) : Prop := Str.lstrip s = s /\ Str.rstrip s = s.

(** The amounts and the integers a text shows, in the order they appear. *)
Fixpoint valores (l : linha) : list float :=
  match l with
  | [] => []
  | Reais v :: r => v :: valores r
  | _ :: r => valores r
  end.

Fixpoint inteiros (l : linha) : list Z :=
  match l with
  | [] => []
  | Inteiro n :: r => n :: inteiros r
  | _ :: r => inteiros r
  end.

(** The lines printed among a list of events. *)
Fixpoint impressos (l : list evento) : list linha :=
  match l with
  | [] => []
  | Print x :: r => x :: impressos r
  | Atualizar _ _ :: r => impressos r
  end.

(** One step of a run, by what it does to the world: it prints and no
    more; it writes a status and notifies; it replaces the observers, adds
    an item or sets the payment method of one order; or it creates an
    order. *)
Inductive passo (w : Mundo) : Mundo -> Prop :=
| passo_imprime l : chamados l = [] -> passo w (com_eventos l w)
| passo_status (r : nat) p s :
    objetos w !! r = Some p ->
    passo w (com_eventos (rodada r (com_status s p) (Pedido._observers p))
               (com_objeto r (com_status s p) w))
| passo_observers (r : nat) p l :
    objetos w !! r = Some p ->
    passo w (com_objeto r (com_observers l p) w)
| passo_item (r : nat) p b :
    objetos w !! r = Some p ->
    passo w (com_objeto r (com_itens (Pedido.itens p ++ [b]) p) w)
| passo_pagamento (r : nat) p e :
    objetos w !! r = Some p ->
    passo w (com_objeto r (com_pagamento (Some e) p) w)
| passo_pedido cliente :
    so_espacos cliente = false -> passo w (com_pedido cliente w).

(** The order an operation is about, if it is about one. *)
Definition alvo (op : operacao) : option nat :=
  match op with
  | DefinirStatus r _ | AdicionarObserver r _ | RemoverObserver r _
  | AdicionarItem r _ | DefinirPagamento r _ | ProcessarPagamento r
  | Total r => Some r
  | NovoPedido _ | Criar _ | Pagar _ _ => None
  end.

Definition e_definir_status (op : operacao) : bool :=
  match op with DefinirStatus _ _ => true | _ => false end.

(** What a run never undoes: from [w] to [w'] the counter has not gone
    down, the trace has only grown, and every order of [w] is in [w'] with
    the same identifier and client, the items it had followed by the new
    ones, and a payment method if it had one. *)
Definition conserva (w w' : Mundo) : Prop :=
  (Pedido_contador w <= Pedido_contador w')%Z
  /\ (exists l, eventos w' = (eventos w ++ l)%list)
  /\ forall (r : nat) p, objetos w !! r = Some p ->
       exists p', objetos w' !! r = Some p'
                  /\ Pedido.id p' = Pedido.id p
                  /\ Pedido.cliente p' = Pedido.cliente p
                  /\ (exists l, Pedido.itens p' = (Pedido.itens p ++ l)%list)
                  /\ (Pedido._pagamento p <> None -> Pedido._pagamento p' <> None).

(** Every order has a client name that is not empty and has no white
    space at either end. *)
Definition clientes_aparados (w : Mundo) : Prop :=
  forall (r : nat) p, objetos w !! r = Some p ->
    aparada (Pedido.cliente p) /\ Pedido.cliente p <> "".


(** Whether an observer prints when it sees an order in a status. *)
Definition reage (o : ObservadorPedido) (s : StatusPedido) : bool :=
  match o, s with
  | NotificadorCliente _, (PREPARANDO | PRONTO) => true
  | NotificadorCliente _, _ => false
  | PainelPedidos, _ => true
  | SistemaMetricas, ENTREGUE => true
  | SistemaMetricas, _ => false
  end.

(** The numbers [start], [start + 1], ... of [n] items. *)
Fixpoint contagem (start : Z) (n : nat) : list Z :=
  match n with
  | O => []
  | S n' => start :: contagem (start + 1) n'
  end.

(** * Properties *)

Local Close Scope float_scope.

(** ** Comparisons and signs of binary64 numbers *)

Section FloatSign.

Local Open Scope float_scope.

Lemma SFcompare_antisym (x y : spec_float) :
  SFcompare y x = option_map CompOpp (SFcompare x y).
Proof.
  destruct x as [[]|[]| |[] mx ex], y as [[]|[]| |[] my ey]; simpl; try reflexivity.
  all: rewrite (Z.compare_antisym ey ex);
    destruct (ey ?= ex)%Z; simpl; try reflexivity;
    rewrite (Pos.compare_cont_antisym mx my Eq); simpl;
    destruct (Pos.compare_cont Eq mx my); reflexivity.
Qed.

Lemma ltb_leb_false (x y : float) : (x <? y) = true -> (y <=? x) = false.
Proof.
  rewrite ltb_spec, leb_spec. unfold SFltb, SFleb.
  rewrite (SFcompare_antisym (Prim2SF x) (Prim2SF y)).
  destruct (SFcompare (Prim2SF x) (Prim2SF y)) as [[]|]; simpl; congruence.
Qed.

Lemma leb_ltb_false (x y : float) : (x <=? y) = true -> (y <? x) = false.
Proof.
  rewrite ltb_spec, leb_spec. unfold SFltb, SFleb.
  rewrite (SFcompare_antisym (Prim2SF x) (Prim2SF y)).
  destruct (SFcompare (Prim2SF x) (Prim2SF y)) as [[]|]; simpl; congruence.
Qed.

Lemma nao_negativo_spec (x : float) :
  nao_negativo x = true <-> sf_nao_negativo (Prim2SF x).
Proof.
  unfold nao_negativo. rewrite leb_spec. unfold SFleb.
  change (Prim2SF 0) with (S754_zero false).
  destruct (Prim2SF x) as [[]|[]| |[] m e]; simpl; intuition congruence.
Qed.

Lemma iter_pos_inv {A} (P : A -> Prop) (f : A -> A) :
  (forall x, P x -> P (f x)) -> forall n x, P x -> P (SpecFloat.iter_pos f n x).
Proof.
  intros Hf. induction n as [n IH|n IH|]; simpl; intros x Hx; auto.
Qed.

Lemma shr_1_nonneg mrs : (0 <= shr_m mrs)%Z -> (0 <= shr_m (shr_1 mrs))%Z.
Proof.
  destruct mrs as [m r s]. simpl.
  destruct m as [|[p|p|]|[p|p|]]; simpl; lia.
Qed.

Lemma shr_nonneg mrs e n :
  (0 <= shr_m mrs)%Z -> (0 <= shr_m (fst (shr mrs e n)))%Z.
Proof.
  intros H. unfold shr. destruct n; simpl; auto.
  apply (iter_pos_inv (fun r => (0 <= shr_m r)%Z)); auto using shr_1_nonneg.
Qed.

Lemma shr_fexp_nonneg m e l :
  (0 <= m)%Z -> (0 <= shr_m (fst (shr_fexp prec emax m e l)))%Z.
Proof.
  intros H. unfold shr_fexp. apply shr_nonneg.
  destruct l as [|[]]; simpl; exact H.
Qed.

Lemma round_nearest_even_nonneg m l :
  (0 <= m)%Z -> (0 <= round_nearest_even m l)%Z.
Proof.
  intros H. destruct l as [|[]]; simpl; try lia.
  destruct (Z.even m); lia.
Qed.

Lemma binary_round_aux_nonneg m e l :
  (0 <= m)%Z -> sf_nao_negativo (binary_round_aux prec emax false m e l).
Proof.
  intros H. unfold binary_round_aux.
  pose proof (shr_fexp_nonneg m e l H) as H1.
  destruct (shr_fexp prec emax m e l) as [mrs' e'] eqn:E1. simpl in H1.
  pose proof (shr_fexp_nonneg _ e' loc_Exact
                (round_nearest_even_nonneg _ (loc_of_shr_record mrs') H1)) as H2.
  destruct (shr_fexp prec emax (round_nearest_even _ _) e' loc_Exact) as [mrs'' e''].
  simpl in H2.
  destruct (shr_m mrs'') as [|p|p]; simpl; auto; try lia.
  destruct (e'' <=? emax - prec)%Z; simpl; auto.
Qed.

Lemma binary_round_nonneg m e :
  sf_nao_negativo (binary_round prec emax false m e).
Proof.
  unfold binary_round.
  destruct (shl_align m e _) as [mz ez].
  apply binary_round_aux_nonneg. lia.
Qed.

Lemma SFadd_nonneg x y :
  sf_nao_negativo x -> sf_nao_negativo y -> sf_nao_negativo (SF64add x y).
Proof.
  destruct x as [sx|sx| |sx mx ex], y as [sy|sy| |sy my ey]; simpl;
    try tauto; intros Hx Hy; subst; simpl; auto.
  - destruct sx, sy; simpl; auto.
  - apply binary_round_nonneg.
Qed.

Lemma add_nao_negativo (x y : float) :
  nao_negativo x = true -> nao_negativo y = true -> nao_negativo (x + y) = true.
Proof.
  rewrite !nao_negativo_spec, add_spec. apply SFadd_nonneg.
Qed.

End FloatSign.

(** ** Halves add without rounding

    The sum of two binary64 numbers that are whole numbers of halves is
    their exact sum, as long as it fits in the 53 bits of a mantissa. *)

Section Exatidao.

Local Open Scope Z_scope.

Lemma digits2_pos_log2 p : Zpos (digits2_pos p) = Z.log2 (Zpos p) + 1.
Proof.
  induction p as [p IH|p IH|]; simpl digits2_pos; rewrite ?Pos2Z.inj_succ, ?IH.
  - rewrite (Pos2Z.inj_xI p), (Z.log2_succ_double (Zpos p)) by lia. lia.
  - rewrite (Pos2Z.inj_xO p), (Z.log2_double (Zpos p)) by lia. lia.
  - reflexivity.
Qed.

Lemma pos_iter_xO m d : Zpos (Pos.iter xO m d) = Zpos m * 2 ^ Zpos d.
Proof.
  induction d as [|d IH] using Pos.peano_ind.
  - simpl. lia.
  - rewrite Pos.iter_succ, Pos2Z.inj_xO, IH, Pos2Z.inj_succ, Z.pow_succ_r by lia. lia.
Qed.

Lemma shl_align_val m e e' :
  e' <= e -> Zpos (fst (shl_align m e e')) = Zpos m * 2 ^ (e - e')
             /\ snd (shl_align m e e') = e'.
Proof.
  intros H. unfold shl_align.
  destruct (e' - e) as [|d|d] eqn:E.
  - assert (e = e') by lia. subst. rewrite Z.sub_diag, Z.pow_0_r. cbn [fst snd]. split; lia.
  - lia.
  - cbn [fst snd]. rewrite pos_iter_xO. replace (e - e') with (Zpos d) by lia. now split.
Qed.

Lemma shl_align_id m e e' : e <= e' -> shl_align m e e' = (m, e).
Proof.
  intros H. unfold shl_align. destruct (e' - e) as [|d|d] eqn:E; try reflexivity. lia.
Qed.

Lemma shr_1_exact m : 0 <= m ->
  shr_1 {| shr_m := 2 * m; shr_r := false; shr_s := false |}
  = {| shr_m := m; shr_r := false; shr_s := false |}.
Proof. destruct m as [|p|p]; simpl; intros; try reflexivity; lia. Qed.

Lemma pow2_xI p : 2 ^ Zpos p~1 = 2 * (2 ^ Zpos p * 2 ^ Zpos p).
Proof.
  replace (Zpos p~1) with (Zpos p + Zpos p + 1) by lia.
  rewrite !Z.pow_add_r by lia. rewrite Z.pow_1_r. ring.
Qed.

Lemma pow2_xO p : 2 ^ Zpos p~0 = 2 ^ Zpos p * 2 ^ Zpos p.
Proof.
  replace (Zpos p~0) with (Zpos p + Zpos p) by lia.
  now rewrite Z.pow_add_r by lia.
Qed.

Lemma iter_pos_shr_1_exact p : forall m, 0 <= m ->
  SpecFloat.iter_pos shr_1 p {| shr_m := m * 2 ^ Zpos p; shr_r := false; shr_s := false |}
  = {| shr_m := m; shr_r := false; shr_s := false |}.
Proof.
  induction p as [p IH|p IH|]; intros m Hm; cbn [SpecFloat.iter_pos].
  - replace (m * 2 ^ Zpos p~1) with (2 * ((m * 2 ^ Zpos p) * 2 ^ Zpos p))
      by (rewrite pow2_xI; ring).
    rewrite shr_1_exact by (apply Z.mul_nonneg_nonneg; lia).
    rewrite IH by (apply Z.mul_nonneg_nonneg; lia). now apply IH.
  - replace (m * 2 ^ Zpos p~0) with ((m * 2 ^ Zpos p) * 2 ^ Zpos p)
      by (rewrite pow2_xO; ring).
    rewrite IH by (apply Z.mul_nonneg_nonneg; lia). now apply IH.
  - replace (m * 2 ^ 1) with (2 * m) by lia. now apply shr_1_exact.
Qed.

Lemma shr_exact m e n : 0 <= m -> 0 <= n ->
  shr {| shr_m := m * 2 ^ n; shr_r := false; shr_s := false |} e n
  = ({| shr_m := m; shr_r := false; shr_s := false |}, e + n).
Proof.
  intros Hm Hn. unfold shr. destruct n as [|p|p]; try lia.
  - now rewrite Z.mul_1_r, Z.add_0_r.
  - now rewrite iter_pos_shr_1_exact.
Qed.

Lemma Zdigits2_log2 n : 0 < n -> Zdigits2 n = Z.log2 n + 1.
Proof. destruct n as [|p|p]; try lia. intros _. apply digits2_pos_log2. Qed.

Lemma fexp_pequeno d : 1 <= d <= 54 -> fexp prec emax (d - 1) = d - 54.
Proof. intros H. unfold fexp, SpecFloat.emin, prec, emax. lia. Qed.

Lemma log2_mul_pow2 s u : 0 < s -> 0 <= u -> Z.log2 (s * 2 ^ u) = Z.log2 s + u.
Proof. intros. rewrite Z.log2_mul_pow2 by lia. lia. Qed.

Section Exato.

Variable s : Z.
Hypothesis s_pos : 0 < s.
Hypothesis s_53 : s < 2 ^ 53.

Lemma ds_bounds : 1 <= digitos s <= 53.
Proof.
  unfold digitos. pose proof (Z.log2_nonneg s).
  assert (Z.log2 s < 53) by (apply Z.log2_lt_pow2; lia). lia.
Qed.


Lemma mantissa_pos : 0 < mantissa_meios s.
Proof.
  pose proof ds_bounds. unfold mantissa_meios.
  apply Z.mul_pos_pos; [lia | apply Z.pow_pos_nonneg; lia].
Qed.

Lemma mantissa_digits : Zdigits2 (mantissa_meios s) = 53.
Proof.
  pose proof ds_bounds. rewrite Zdigits2_log2 by apply mantissa_pos.
  unfold mantissa_meios. rewrite log2_mul_pow2 by lia. unfold digitos. lia.
Qed.

Lemma binary_round_aux_exato m u :
  53 - digitos s <= u -> Zpos m = s * 2 ^ u ->
  binary_round_aux prec emax false (Zpos m) (-1 - u) loc_Exact
  = S754_finite false (Z.to_pos (mantissa_meios s)) (digitos s - 54).
Proof.
  intros Hu Hm. pose proof ds_bounds as Hd. pose proof mantissa_pos as Hp.
  unfold binary_round_aux, shr_fexp.
  rewrite (Zdigits2_log2 (Zpos m)) by lia.
  rewrite Hm, log2_mul_pow2 by lia.
  replace (Z.log2 s + u + 1 + (-1 - u)) with (digitos s - 1) by (unfold digitos; lia).
  rewrite fexp_pequeno by lia.
  cbn [shr_record_of_loc].
  replace (s * 2 ^ u) with (mantissa_meios s * 2 ^ (digitos s - 54 - (-1 - u))).
  2:{ unfold mantissa_meios. rewrite <- Z.mul_assoc, <- Z.pow_add_r by lia.
      f_equal. f_equal. lia. }
  rewrite shr_exact by lia.
  cbn [shr_m loc_of_shr_record round_nearest_even].
  rewrite mantissa_digits.
  replace (-1 - u + (digitos s - 54 - (-1 - u))) with (digitos s - 54) by lia.
  replace (53 + (digitos s - 54)) with (digitos s - 1) by lia.
  rewrite fexp_pequeno by lia. rewrite Z.sub_diag.
  cbn [shr shr_record_of_loc shr_m].
  destruct (mantissa_meios s) as [|q|q] eqn:E; try lia.
  cbn [Z.to_pos].
  replace (digitos s - 54 <=? emax - prec) with true; [reflexivity|].
  symmetry. apply Z.leb_le. unfold emax, prec. lia.
Qed.

Lemma binary_round_exato m t :
  0 <= t -> Zpos m = s * 2 ^ t ->
  binary_round prec emax false m (-1 - t)
  = S754_finite false (Z.to_pos (mantissa_meios s)) (digitos s - 54).
Proof.
  intros Ht Hm. pose proof ds_bounds as Hd.
  unfold binary_round.
  rewrite digits2_pos_log2, Hm, log2_mul_pow2 by lia.
  replace (Z.log2 s + t + 1 + (-1 - t)) with (digitos s - 1) by (unfold digitos; lia).
  rewrite fexp_pequeno by lia.
  destruct (Z_le_gt_dec (digitos s - 54) (-1 - t)) as [Hle|Hgt].
  - destruct (shl_align_val m (-1 - t) (digitos s - 54) Hle) as [Hv He].
    destruct (shl_align m (-1 - t) (digitos s - 54)) as [mz ez]. cbn [fst snd] in Hv, He.
    subst ez. replace (digitos s - 54) with (-1 - (53 - digitos s)) at 1 by lia.
    apply binary_round_aux_exato; [lia|].
    rewrite Hv, Hm, <- Z.mul_assoc, <- Z.pow_add_r by lia. f_equal. f_equal. lia.
  - rewrite shl_align_id by lia. apply binary_round_aux_exato; [lia | exact Hm].
Qed.

End Exato.

(** [canonico k] is [k/2]: its mantissa [m] and exponent [e] are such that
    [m * 2^e = k/2], which is [m = k * 2^(-1-e)] without fractions. *)
Lemma canonico_valor k m e :
  0 < k < 2 ^ 53 -> canonico k = S754_finite false m e ->
  e <= -1 /\ Zpos m = k * 2 ^ (-1 - e).
Proof.
  intros Hk. unfold canonico.
  destruct (Z.eqb_spec k 0) as [->|Hne]; [lia|].
  pose proof (ds_bounds k ltac:(lia) ltac:(lia)) as Hd.
  pose proof (mantissa_pos k ltac:(lia) ltac:(lia)) as Hp.
  intros H. injection H as <- <-. split; [lia|].
  rewrite Z2Pos.id by exact Hp. unfold mantissa_meios. f_equal. f_equal. lia.
Qed.

(** The sum of [k/2] and [j/2] is [(k+j)/2]: nothing is rounded away. *)
Lemma add_exato (x y : float) (k j : Z) :
  Prim2SF x = canonico k -> Prim2SF y = canonico j ->
  0 <= k -> 0 <= j -> k + j < 2 ^ 53 ->
  Prim2SF (x + y)%float = canonico (k + j).
Proof.
  intros Hx Hy Hk Hj Hs. rewrite add_spec, Hx, Hy.
  destruct (Z.eqb_spec k 0) as [->|Hk0].
  { rewrite Z.add_0_l. unfold canonico at 1. cbn [Z.eqb].
    unfold canonico. destruct (j =? 0); reflexivity. }
  destruct (Z.eqb_spec j 0) as [->|Hj0].
  { rewrite Z.add_0_r. unfold canonico at 2. cbn [Z.eqb].
    unfold canonico. destruct (k =? 0); reflexivity. }
  assert (Ek : exists mk ek, canonico k = S754_finite false mk ek).
  { unfold canonico. destruct (Z.eqb_spec k 0); [lia | eauto]. }
  assert (Ej : exists mj ej, canonico j = S754_finite false mj ej).
  { unfold canonico. destruct (Z.eqb_spec j 0); [lia | eauto]. }
  destruct Ek as (mk & ek & Ek), Ej as (mj & ej & Ej). rewrite Ek, Ej.
  destruct (canonico_valor k mk ek ltac:(lia) Ek) as [Hek Hmk].
  destruct (canonico_valor j mj ej ltac:(lia) Ej) as [Hej Hmj].
  unfold SF64add, SFadd. cbn [cond_Zopp].
  destruct (shl_align_val mk ek (Z.min ek ej) ltac:(lia)) as [Hvk _].
  destruct (shl_align_val mj ej (Z.min ek ej) ltac:(lia)) as [Hvj _].
  set (a := fst (shl_align mk ek (Z.min ek ej))) in *.
  set (b := fst (shl_align mj ej (Z.min ek ej))) in *.
  change (Z.pos a + Z.pos b) with (Z.pos (a + b)). unfold binary_normalize.
  replace (Z.min ek ej) with (-1 - (-1 - Z.min ek ej)) at 1 by lia.
  rewrite (binary_round_exato (k + j)) ; try lia.
  - unfold canonico. destruct (Z.eqb_spec (k + j) 0); [lia | reflexivity].
  - rewrite Pos2Z.inj_add, Hvk, Hvj, Hmk, Hmj.
    rewrite <- !Z.mul_assoc, <- !Z.pow_add_r by lia.
    replace (-1 - ek + (ek - Z.min ek ej)) with (-1 - Z.min ek ej) by lia.
    replace (-1 - ej + (ej - Z.min ek ej)) with (-1 - Z.min ek ej) by lia.
    ring.
Qed.

Lemma meios_min b : 10 <= meios b.
Proof. induction b; simpl; lia. Qed.

(** The price of a drink is its price in half reais, halved. *)
Lemma preco_exato b : meios b < 2 ^ 53 -> Prim2SF (preco b) = canonico (meios b).
Proof.
  induction b as [| | |b IH|b IH|b IH]; intros H; try reflexivity;
    pose proof (meios_min b); cbn [meios preco] in *;
    (apply add_exato; [apply IH; lia | reflexivity | lia | lia | lia]).
Qed.

Lemma soma_Z_cons x l : soma_Z (x :: l) = x + soma_Z l.
Proof. reflexivity. Qed.

Lemma soma_meios_min l : 0 <= soma_Z (map meios l).
Proof.
  induction l as [|b l IH]; cbn [map]; [unfold soma_Z; simpl; lia|].
  rewrite soma_Z_cons. pose proof (meios_min b). lia.
Qed.

Lemma fold_exato l : forall x k,
  Prim2SF x = canonico k -> 0 <= k -> k + soma_Z (map meios l) < 2 ^ 53 ->
  Prim2SF (fold_left PrimFloat.add (map preco l) x) = canonico (k + soma_Z (map meios l)).
Proof.
  induction l as [|b l IH]; intros x k Hx Hk Hs; cbn [map fold_left] in *.
  - unfold soma_Z. simpl. now rewrite Z.add_0_r.
  - rewrite soma_Z_cons in *.
    pose proof (meios_min b). pose proof (soma_meios_min l).
    rewrite Z.add_assoc. apply IH; [|lia|lia].
    apply add_exato; [exact Hx | apply preco_exato; lia | lia | lia | lia].
Qed.

(** The sum of the prices of a list of drinks is exact. *)
Lemma sum_exato l :
  soma_Z (map meios l) < 2 ^ 53 ->
  Prim2SF (sum (map preco l)) = canonico (soma_Z (map meios l)).
Proof.
  intros H. unfold sum.
  rewrite (fold_exato l 0%float 0) by (try reflexivity; lia). reflexivity.
Qed.

Lemma meios_decorar l : forall base,
  meios (decorar base l) = meios base + soma_Z (map meios_acrescimo l).
Proof.
  unfold decorar. induction l as [|i l IH]; intros base; cbn [fold_left map].
  - unfold soma_Z. simpl. lia.
  - rewrite IH, soma_Z_cons. destruct i; simpl; lia.
Qed.

End Exatidao.
(** ** The monad and the store *)

Lemma bind_ret_l {A B} (a : A) (k : A -> M B) w : bind (ret a) k w = k a w.
Proof. reflexivity. Qed.

Lemma bind_ret_r {A} (m : M A) w : bind m ret w = m w.
Proof. unfold bind, ret. now destruct (m w) as [[a|e|] w']. Qed.

Lemma bind_assoc {A B C} (m : M A) (k : A -> M B) (h : B -> M C) w :
  bind (bind m k) h w = bind m (fun a => bind (k a) h) w.
Proof. unfold bind. now destruct (m w) as [[a|e|] w']. Qed.

(** An exception leaves the rest of the program unrun. *)
Lemma bind_raise {A B} (e : excecao) (k : A -> M B) w :
  bind (raise e) k w = (Levanta e, w).
Proof. reflexivity. Qed.

Lemma com_eventos_nil w : com_eventos [] w = w.
Proof. destruct w; unfold com_eventos; simpl. now rewrite app_nil_r. Qed.

Lemma com_eventos_app l1 l2 w :
  com_eventos l2 (com_eventos l1 w) = com_eventos (l1 ++ l2) w.
Proof. unfold com_eventos; simpl. now rewrite app_assoc. Qed.

Lemma ler_ok w (self : nat) p :
  objetos w !! self = Some p -> ler self w = (Retorna p, w).
Proof. intros H. unfold ler. now rewrite H. Qed.

Lemma escrever_ok w (self : nat) p q :
  objetos w !! self = Some p -> escrever self q w = (Retorna tt, com_objeto self q w).
Proof. intros H. unfold escrever. now rewrite H. Qed.

Lemma lookup_com_objeto w (self : nat) p q :
  objetos w !! self = Some p -> objetos (com_objeto self q w) !! self = Some q.
Proof.
  intros H. simpl. apply list_lookup_insert_eq. now apply lookup_lt_Some in H.
Qed.

Lemma print_ok l w : print l w = (Retorna tt, com_eventos [Print l] w).
Proof. reflexivity. Qed.

Lemma registrar_ok e w : registrar e w = (Retorna tt, com_eventos [e] w).
Proof. reflexivity. Qed.

(** ** Observers react to the order they are given *)

Lemma atualizar_ok o w (pedido : nat) p :
  objetos w !! pedido = Some p ->
  atualizar o pedido w
  = (Retorna tt, com_eventos (reacao o (Pedido.id p) (Pedido._status p)) w).
Proof.
  intros H. destruct p as [i c its st obs pg]; simpl.
  destruct o as [n| |], st; unfold atualizar, status, id_de, bind, ret;
    repeat (rewrite (ler_ok _ _ _ H); simpl);
    rewrite ?print_ok, ?com_eventos_nil; reflexivity.
Qed.

Lemma para_cada_observer l : forall w (self : nat) p,
  objetos w !! self = Some p ->
  para_cada l (fun observer =>
                 bind (registrar (Atualizar observer self))
                      (fun _ => atualizar observer self)) w
  = (Retorna tt, com_eventos (rodada self p l) w).
Proof.
  induction l as [|o l IH]; intros w self p H; simpl.
  - unfold ret. now rewrite com_eventos_nil.
  - unfold bind at 1. unfold bind at 1. rewrite registrar_ok.
    rewrite (atualizar_ok o _ self p) by exact H.
    rewrite (IH _ self p) by exact H.
    rewrite !com_eventos_app. simpl. reflexivity.
Qed.

Lemma _notificar_ok w (self : nat) p :
  objetos w !! self = Some p ->
  _notificar self w
  = (Retorna tt, com_eventos (rodada self p (Pedido._observers p)) w).
Proof.
  intros H. unfold _notificar, bind. rewrite (ler_ok _ _ _ H).
  now apply para_cada_observer.
Qed.

Lemma set_status_ok w (self : nat) p s :
  objetos w !! self = Some p ->
  set_status self (OStatus s) w
  = (Retorna tt,
     com_eventos (rodada self (com_status s p) (Pedido._observers p))
       (com_objeto self (com_status s p) w)).
Proof.
  intros H. unfold set_status, bind.
  rewrite (ler_ok _ _ _ H), (escrever_ok _ _ _ _ H).
  rewrite (_notificar_ok _ self (com_status s p)).
  - reflexivity.
  - now apply lookup_com_objeto with (p := p).
Qed.

Lemma set_status_erro w (self : nat) v :
  e_status v = false ->
  set_status self v w
  = (Levanta (TypeError "Status deve ser uma instância de StatusPedido"), w).
Proof. destruct v; simpl; try discriminate; reflexivity. Qed.

(** ** Equality of observers *)

Lemma ObservadorPedido_eq_iff a b :
  ObservadorPedido_eq a (OObservador b) = true <-> a = b.
Proof.
  destruct a as [n1| |], b as [n2| |]; simpl; split; try congruence; try reflexivity.
  - intros H. apply String.eqb_eq in H. now subst.
  - intros H. injection H as ->. apply String.eqb_refl.
Qed.

Lemma contem_iff o l : contem (OObservador o) l = true <-> In o l.
Proof.
  unfold contem. rewrite existsb_exists. split.
  - intros (x & Hx & E). apply ObservadorPedido_eq_iff in E. now subst.
  - intros H. exists o. split; [exact H | now apply ObservadorPedido_eq_iff].
Qed.

Lemma contem_outro x l : (forall o, x <> OObservador o) -> contem x l = false.
Proof.
  intros H. unfold contem. induction l as [|e l IH]; simpl; [reflexivity|].
  rewrite IH, orb_false_r. destruct x; try reflexivity. now destruct (H o).
Qed.

Lemma remove_NoDup x l : List.NoDup l -> List.NoDup (remove x l).
Proof.
  induction 1 as [|e l Hn Hd IH]; cbn [remove]; [constructor|].
  destruct (ObservadorPedido_eq e x); [exact Hd|].
  constructor; [|exact IH].
  intros Hin. apply Hn. clear -Hin.
  induction l as [|e' l IH]; cbn [remove In] in *; [tauto|].
  destruct (ObservadorPedido_eq e' x); cbn [In] in *; tauto.
Qed.


(** ** What each method does to a live order *)

Section Metodos.

Variables (w : Mundo) (self : nat) (p : Pedido.t).
Hypothesis vivo : objetos w !! self = Some p.

Lemma adicionar_observer_ok o :
  adicionar_observer self (OObservador o) w
  = (Retorna tt,
     if contem (OObservador o) (Pedido._observers p) then w
     else com_objeto self (com_observers (Pedido._observers p ++ [o]) p) w).
Proof.
  unfold adicionar_observer, bind. rewrite (ler_ok _ _ _ vivo).
  destruct (contem _ _); simpl; [reflexivity|].
  now rewrite (escrever_ok _ _ _ _ vivo).
Qed.

Lemma remover_observer_ok x :
  remover_observer self x w
  = (Retorna tt,
     if contem x (Pedido._observers p)
     then com_objeto self (com_observers (remove x (Pedido._observers p)) p) w
     else w).
Proof.
  unfold remover_observer, bind. rewrite (ler_ok _ _ _ vivo).
  destruct (contem _ _); simpl; [|reflexivity].
  now rewrite (escrever_ok _ _ _ _ vivo).
Qed.

Lemma adicionar_item_ok b :
  adicionar_item self (OBebida b) w
  = (Retorna tt, com_objeto self (com_itens (Pedido.itens p ++ [b]) p) w).
Proof.
  unfold adicionar_item, bind. rewrite (ler_ok _ _ _ vivo).
  now rewrite (escrever_ok _ _ _ _ vivo).
Qed.

Lemma definir_pagamento_ok e :
  definir_pagamento self (OPagamento e) w
  = (Retorna tt, com_objeto self (com_pagamento (Some e) p) w).
Proof.
  unfold definir_pagamento, bind. rewrite (ler_ok _ _ _ vivo).
  now rewrite (escrever_ok _ _ _ _ vivo).
Qed.

Lemma total_ok :
  total self w = (Retorna (sum (map preco (Pedido.itens p))), w).
Proof. unfold total, bind. now rewrite (ler_ok _ _ _ vivo). Qed.

Lemma processar_pagamento_ok :
  processar_pagamento self w
  = match Pedido._pagamento p, Pedido.itens p with
    | None, _ => (Levanta (RuntimeError "Nenhuma forma de pagamento definida!"), w)
    | Some _, [] =>
        (Levanta (RuntimeError "Pedido vazio! Adicione itens antes de pagar."), w)
    | Some pagamento, _ :: _ => pagar pagamento (sum (map preco (Pedido.itens p))) w
    end.
Proof.
  unfold processar_pagamento, bind. rewrite (ler_ok _ _ _ vivo).
  destruct (Pedido._pagamento p) as [e|]; [|reflexivity].
  rewrite (ler_ok _ _ _ vivo).
  destruct (Pedido.itens p) as [|b l] eqn:E; [reflexivity|].
  rewrite total_ok, E. reflexivity.
Qed.

End Metodos.

(** Payment and the factory print, and touch nothing else. *)
Ltac so_imprime :=
  unfold _log_pagamento, _log_preparacao, print, registrar, bind, raise, ret;
  cbn [snd];
  first [ exists []; now rewrite com_eventos_nil
        | rewrite ?com_eventos_app; eexists; reflexivity ].

Lemma pagar_so_imprime e v w :
  exists l, snd (pagar e v w) = com_eventos l w.
Proof.
  destruct e as [n|c|t]; unfold pagar; destruct (v <=? 0)%float; try so_imprime.
  destruct (v <=? t)%float; [|so_imprime].
  destruct (0 <? t - v)%float; so_imprime.
Qed.

Lemma criar_so_imprime tipo w :
  exists l, snd (FabricaBebidas.criar tipo w) = com_eventos l w.
Proof.
  unfold FabricaBebidas.criar.
  destruct (_ || _); [so_imprime|].
  destruct (FabricaBebidas.get _ _); unfold preparar_pedido; so_imprime.
Qed.

(** ** Strings: white space at the ends *)

Lemma lstrip_eq s :
  Str.lstrip s
  = match Str.apos_espaco s with Some r => Str.lstrip r | None => s end.
Proof.
  destruct s as [|c [|d [|e r]]]; cbn [Str.lstrip Str.apos_espaco]; [reflexivity| | |].
  - now destruct (Str.isspace c).
  - destruct (Str.isspace c); [reflexivity|]. now destruct (Str.isspace2 c d).
  - destruct (Str.isspace c); [reflexivity|].
    destruct (Str.isspace2 c d); [reflexivity|]. now destruct (Str.isspace3 c d e).
Qed.

Lemma so_espacos_eq s :
  so_espacos s
  = match s with
    | EmptyString => true
    | String _ _ =>
        match Str.apos_espaco s with Some r => so_espacos r | None => false end
    end.
Proof.
  destruct s as [|c [|d [|e r]]]; cbn [so_espacos Str.apos_espaco]; [reflexivity| | |].
  - now destruct (Str.isspace c).
  - destruct (Str.isspace c); [reflexivity|]. now destruct (Str.isspace2 c d).
  - destruct (Str.isspace c); [reflexivity|].
    destruct (Str.isspace2 c d); [reflexivity|]. now destruct (Str.isspace3 c d e).
Qed.

(** A white space character is a prefix of one, two or three bytes. *)
Lemma apos_espaco_prefixo s r :
  Str.apos_espaco s = Some r ->
  exists p, s = p ++ r /\ (0 < String.length p)%nat.
Proof.
  destruct s as [|c [|d [|e t]]]; cbn [Str.apos_espaco]; [discriminate| | |].
  - destruct (Str.isspace c); [|discriminate]. intros H. injection H as <-.
    exists (String c ""). split; [reflexivity | simpl; lia].
  - destruct (Str.isspace c).
    + intros H. injection H as <-. exists (String c ""). split; [reflexivity | simpl; lia].
    + destruct (Str.isspace2 c d); [|discriminate]. intros H. injection H as <-.
      exists (String c (String d "")). split; [reflexivity | simpl; lia].
  - destruct (Str.isspace c).
    + intros H. injection H as <-. exists (String c ""). split; [reflexivity | simpl; lia].
    + destruct (Str.isspace2 c d).
      * intros H. injection H as <-.
        exists (String c (String d "")). split; [reflexivity | simpl; lia].
      * destruct (Str.isspace3 c d e); [|discriminate]. intros H. injection H as <-.
        exists (String c (String d (String e ""))). split; [reflexivity | simpl; lia].
Qed.

Lemma length_append (a b : string) :
  String.length (a ++ b) = (String.length a + String.length b)%nat.
Proof. induction a as [|c a IH]; simpl; [reflexivity | now rewrite IH]. Qed.

Lemma apos_espaco_menor s r :
  Str.apos_espaco s = Some r -> (String.length r < String.length s)%nat.
Proof.
  intros H. destruct (apos_espaco_prefixo s r H) as (p & -> & Hp).
  rewrite length_append. lia.
Qed.

(** What a text starts with does not depend on what follows it. *)
Lemma apos_espaco_app s r x :
  Str.apos_espaco s = Some r -> Str.apos_espaco (s ++ x) = Some (r ++ x).
Proof.
  destruct s as [|c [|d [|e t]]]; cbn [Str.apos_espaco append]; [discriminate| | |].
  - destruct (Str.isspace c); [|discriminate]. intros H. now injection H as <-.
  - destruct (Str.isspace c); [intros H; now injection H as <-|].
    destruct (Str.isspace2 c d); [|discriminate]. intros H. now injection H as <-.
  - destruct (Str.isspace c); [intros H; now injection H as <-|].
    destruct (Str.isspace2 c d); [intros H; now injection H as <-|].
    destruct (Str.isspace3 c d e); [|discriminate]. intros H. now injection H as <-.
Qed.

(** Induction on the length of a text. *)
Lemma string_ind_length (P : string -> Prop) :
  (forall s, (forall r, (String.length r < String.length s)%nat -> P r) -> P s) ->
  forall s, P s.
Proof.
  intros H s. assert (Hn : forall n s, (String.length s < n)%nat -> P s).
  { induction n as [|n IH]; intros t Ht; [lia|].
    apply H. intros r Hr. apply IH. lia. }
  apply (Hn (S (String.length s))). lia.
Qed.

Lemma lstrip_apos s : Str.apos_espaco (Str.lstrip s) = None.
Proof.
  induction s as [s IH] using string_ind_length. rewrite lstrip_eq.
  destruct (Str.apos_espaco s) as [r|] eqn:E; [|exact E].
  apply IH. now apply apos_espaco_menor.
Qed.

Lemma apos_lstrip s : Str.apos_espaco s = None -> Str.lstrip s = s.
Proof. intros H. now rewrite lstrip_eq, H. Qed.

Lemma lstrip_idem s : Str.lstrip (Str.lstrip s) = Str.lstrip s.
Proof. apply apos_lstrip, lstrip_apos. Qed.

Lemma lstrip_vazia s : Str.vazia (Str.lstrip s) = so_espacos s.
Proof.
  induction s as [s IH] using string_ind_length.
  rewrite lstrip_eq, so_espacos_eq. destruct s as [|c t]; [reflexivity|].
  destruct (Str.apos_espaco (String c t)) as [r|] eqn:E; [|reflexivity].
  apply IH. now apply apos_espaco_menor.
Qed.

Lemma lstrip_espacos s : so_espacos (Str.lstrip s) = so_espacos s.
Proof. now rewrite <- !lstrip_vazia, lstrip_idem. Qed.

Lemma rstrip_cons c r :
  Str.rstrip (String c r)
  = if so_espacos (String c r) then EmptyString else String c (Str.rstrip r).
Proof.
  rewrite <- lstrip_vazia. cbn [Str.rstrip].
  now destruct (Str.lstrip (String c r)).
Qed.

Lemma rstrip_vazia s : Str.vazia (Str.rstrip s) = so_espacos s.
Proof.
  destruct s as [|c r]; [reflexivity|]. rewrite rstrip_cons.
  now destruct (so_espacos (String c r)).
Qed.

Lemma strip_vazia s : Str.vazia (Str.strip s) = so_espacos s.
Proof. unfold Str.strip. now rewrite rstrip_vazia, lstrip_espacos. Qed.

(** The test that opens [criar] and the constructors:
    [not s or not s.strip()]. *)
Lemma criar_guarda tipo :
  Str.vazia tipo || Str.vazia (Str.strip tipo) = so_espacos tipo.
Proof. rewrite strip_vazia. now destruct tipo. Qed.

(** What [rstrip] cuts off is white space only. *)
Lemma rstrip_resto s : exists x, s = Str.rstrip s ++ x /\ so_espacos x = true.
Proof.
  induction s as [|c r (x & Hx & Hs)]; [now exists ""|]. rewrite rstrip_cons.
  destruct (so_espacos (String c r)) eqn:E.
  - now exists (String c r).
  - exists x. split; [|exact Hs]. simpl. now rewrite <- Hx.
Qed.

Lemma so_espacos_app a x : so_espacos a = true -> so_espacos (a ++ x) = so_espacos x.
Proof.
  induction a as [a IH] using string_ind_length. intros Ha.
  destruct a as [|c t]; [reflexivity|].
  rewrite so_espacos_eq in Ha.
  destruct (Str.apos_espaco (String c t)) as [r|] eqn:E; [|discriminate].
  rewrite so_espacos_eq. cbn [append].
  change (String c (t ++ x)) with (String c t ++ x).
  rewrite (apos_espaco_app _ _ x E).
  apply IH; [now apply apos_espaco_menor | exact Ha].
Qed.

Lemma rstrip_espacos s : so_espacos (Str.rstrip s) = so_espacos s.
Proof.
  destruct (so_espacos s) eqn:E.
  - destruct s as [|c r]; [reflexivity|]. now rewrite rstrip_cons, E.
  - destruct (so_espacos (Str.rstrip s)) eqn:E'; [|reflexivity].
    destruct (rstrip_resto s) as (x & Hx & Hs).
    rewrite Hx, (so_espacos_app _ x E'), Hs in E. discriminate.
Qed.

Lemma rstrip_idem s : Str.rstrip (Str.rstrip s) = Str.rstrip s.
Proof.
  induction s as [|c r IH]; [reflexivity|].
  pose proof (rstrip_espacos (String c r)) as H. rewrite rstrip_cons in *.
  destruct (so_espacos (String c r)) eqn:E; [reflexivity|].
  now rewrite rstrip_cons, H, IH.
Qed.

Lemma rstrip_apos s : Str.apos_espaco s = None -> Str.apos_espaco (Str.rstrip s) = None.
Proof.
  intros H. destruct (Str.apos_espaco (Str.rstrip s)) as [r|] eqn:E; [|reflexivity].
  destruct (rstrip_resto s) as (x & Hx & _).
  rewrite Hx, (apos_espaco_app _ _ x E) in H. discriminate.
Qed.

Lemma strip_aparada s : aparada (Str.strip s).
Proof.
  unfold aparada, Str.strip. split; [|apply rstrip_idem].
  apply apos_lstrip, rstrip_apos, lstrip_apos.
Qed.

Lemma strip_idem s : Str.strip (Str.strip s) = Str.strip s.
Proof.
  destruct (strip_aparada s) as [H1 H2]. unfold Str.strip at 1. now rewrite H1, H2.
Qed.

Lemma strip_nao_vazia s : so_espacos s = false -> Str.strip s <> "".
Proof.
  intros H E. rewrite <- strip_vazia in H. rewrite E in H. discriminate.
Qed.

(** ** Strings: lower case *)

(** [lower_char] leaves a byte as it is, or takes a byte under 123 to a
    byte under 123: no byte of a white space character of two or three
    bytes is touched. *)
Lemma lower_char_byte c :
  Str.lower_char c = c
  \/ ((nat_of_ascii c < 123)%nat /\ (nat_of_ascii (Str.lower_char c) < 123)%nat).
Proof.
  unfold Str.lower_char.
  destruct ((65 <=? nat_of_ascii c)%nat && (nat_of_ascii c <=? 90)%nat) eqn:E; [|now left].
  right. apply andb_prop in E as [E1 E2].
  apply Nat.leb_le in E1. apply Nat.leb_le in E2.
  rewrite nat_ascii_embedding by lia. lia.
Qed.

Lemma eqb_lower c k :
  (123 <= k)%nat ->
  (nat_of_ascii (Str.lower_char c) =? k)%nat = (nat_of_ascii c =? k)%nat.
Proof.
  intros Hk. destruct (lower_char_byte c) as [->|[H1 H2]]; [reflexivity|].
  transitivity false; [|symmetry]; apply Nat.eqb_neq; lia.
Qed.

Lemma leb_lower_inf c k :
  (123 <= k)%nat ->
  (k <=? nat_of_ascii (Str.lower_char c))%nat = (k <=? nat_of_ascii c)%nat.
Proof.
  intros Hk. destruct (lower_char_byte c) as [->|[H1 H2]]; [reflexivity|].
  transitivity false; [|symmetry]; apply Nat.leb_gt; lia.
Qed.

Lemma leb_lower_sup c k :
  (123 <= k)%nat ->
  (nat_of_ascii (Str.lower_char c) <=? k)%nat = (nat_of_ascii c <=? k)%nat.
Proof.
  intros Hk. destruct (lower_char_byte c) as [->|[H1 H2]]; [reflexivity|].
  transitivity true; [|symmetry]; apply Nat.leb_le; lia.
Qed.

Lemma isspace_lower_char c : Str.isspace (Str.lower_char c) = Str.isspace c.
Proof. destruct c as [[] [] [] [] [] [] [] []]; reflexivity. Qed.

Lemma isspace2_lower_char c d :
  Str.isspace2 (Str.lower_char c) (Str.lower_char d) = Str.isspace2 c d.
Proof. unfold Str.isspace2. now rewrite !eqb_lower by lia. Qed.

Lemma isspace3_lower_char c d e :
  Str.isspace3 (Str.lower_char c) (Str.lower_char d) (Str.lower_char e)
  = Str.isspace3 c d e.
Proof.
  unfold Str.isspace3.
  now rewrite !eqb_lower, leb_lower_inf, leb_lower_sup by lia.
Qed.

Lemma apos_espaco_lower s :
  Str.apos_espaco (Str.lower s) = option_map Str.lower (Str.apos_espaco s).
Proof.
  destruct s as [|c [|d [|e r]]]; cbn [Str.lower Str.apos_espaco]; [reflexivity| | |];
    rewrite ?isspace_lower_char, ?isspace2_lower_char, ?isspace3_lower_char.
  - now destruct (Str.isspace c).
  - destruct (Str.isspace c); [reflexivity|]. now destruct (Str.isspace2 c d).
  - destruct (Str.isspace c); [reflexivity|].
    destruct (Str.isspace2 c d); [reflexivity|]. now destruct (Str.isspace3 c d e).
Qed.

Lemma lstrip_lower s : Str.lstrip (Str.lower s) = Str.lower (Str.lstrip s).
Proof.
  induction s as [s IH] using string_ind_length.
  rewrite (lstrip_eq s), lstrip_eq, apos_espaco_lower.
  destruct (Str.apos_espaco s) as [r|] eqn:E; cbn [option_map]; [|reflexivity].
  apply IH. now apply apos_espaco_menor.
Qed.

Lemma so_espacos_lower s : so_espacos (Str.lower s) = so_espacos s.
Proof.
  rewrite <- !lstrip_vazia, lstrip_lower. now destruct (Str.lstrip s).
Qed.

Lemma rstrip_lower s : Str.rstrip (Str.lower s) = Str.lower (Str.rstrip s).
Proof.
  induction s as [|c r IH]; [reflexivity|].
  change (Str.lower (String c r)) with (String (Str.lower_char c) (Str.lower r)) at 1.
  rewrite !rstrip_cons.
  change (String (Str.lower_char c) (Str.lower r)) with (Str.lower (String c r)).
  rewrite so_espacos_lower.
  destruct (so_espacos (String c r)); [reflexivity|]. cbn [Str.lower]. now rewrite IH.
Qed.

Lemma strip_lower s : Str.strip (Str.lower s) = Str.lower (Str.strip s).
Proof. unfold Str.strip. now rewrite lstrip_lower, rstrip_lower. Qed.

(** ** Strings: characters counted *)

Lemma conta_app a b : Str.conta (a ++ b) = (Str.conta a + Str.conta b)%nat.
Proof.
  induction a as [|c a IH]; simpl; [reflexivity|].
  destruct (Str.continua c); now rewrite IH.
Qed.

Lemma len_app a b : Str.len (a ++ b) = (Str.len a + Str.len b)%Z.
Proof. unfold Str.len. rewrite conta_app. lia. Qed.

Lemma ultimos_sufixo n s : exists inicio, s = inicio ++ Str.ultimos n s.
Proof.
  induction s as [|c r [p Hp]]; [now exists ""|]. cbn [Str.ultimos].
  destruct (negb (Str.continua c) && (Str.conta (String c r) <=? n)%nat).
  - now exists "".
  - exists (String c p). simpl. now rewrite <- Hp.
Qed.

Lemma conta_ultimos n s :
  (0 < n)%nat -> (n <= Str.conta s)%nat -> Str.conta (Str.ultimos n s) = n.
Proof.
  intros Hn. induction s as [|c r IH]; intros H; [simpl in H; lia|].
  cbn [Str.ultimos].
  destruct (negb (Str.continua c) && (Str.conta (String c r) <=? n)%nat) eqn:E.
  - apply andb_prop in E as [_ E]. apply Nat.leb_le in E. lia.
  - apply IH. cbn [Str.conta] in *. destruct (Str.continua c); [exact H|].
    cbn [negb andb] in E. apply Nat.leb_gt in E. lia.
Qed.

Lemma conta_ultimos_curto n s :
  (Str.conta s <= n)%nat -> (Str.conta (Str.ultimos n s) = Str.conta s)%nat.
Proof.
  induction s as [|c r IH]; intros H; [reflexivity|]. cbn [Str.ultimos].
  destruct (Str.continua c) eqn:Ec; cbn [negb andb].
  - cbn [Str.conta] in *. rewrite Ec in *. now apply IH.
  - replace (Str.conta (String c r) <=? n)%nat with true; [reflexivity|].
    symmetry. now apply Nat.leb_le.
Qed.

(** ** One step of a run *)

Lemma Pedido_init_ok cliente w :
  Str.vazia cliente || Str.vazia (Str.strip cliente) = false ->
  Pedido_init cliente w = (Retorna (length (objetos w)), com_pedido cliente w).
Proof. intros H. unfold Pedido_init. now rewrite H. Qed.

Lemma Pedido_init_erro cliente w :
  Str.vazia cliente || Str.vazia (Str.strip cliente) = true ->
  Pedido_init cliente w
  = (Levanta (ValueError "Nome do cliente não pode ser vazio"), w).
Proof. intros H. unfold Pedido_init. now rewrite H. Qed.

(** A call on a reference to no object leaves the world as it was. *)
Ltac sem_objeto E :=
  unfold set_status, adicionar_observer, remover_observer, adicionar_item,
    definir_pagamento, processar_pagamento, total, bind, ler;
  rewrite ?E; reflexivity.

Lemma executar_sem_objeto op w :
  match op with
  | DefinirStatus r _ | AdicionarObserver r _ | RemoverObserver r _
  | AdicionarItem r _ | DefinirPagamento r _ | ProcessarPagamento r
  | Total r => objetos w !! r = None
  | _ => False
  end ->
  executar op w = w.
Proof.
  destruct op as [c|r v|r v|r v|r v|r v|r|r|t|e v]; simpl; try tauto; intros E;
    try destruct v; try sem_objeto E.
Qed.

Lemma evolui_refl w : evolui w w.
Proof. rewrite <- (com_eventos_nil w) at 2. constructor. Qed.

Lemma evolui_escrita w (r : nat) p q :
  objetos w !! r = Some p ->
  Pedido.id q = Pedido.id p ->
  (List.NoDup (Pedido._observers p) -> List.NoDup (Pedido._observers q)) ->
  evolui w (com_objeto r q w).
Proof.
  intros. rewrite <- (com_eventos_nil (com_objeto r q w)). now apply evolui_objeto with (p := p).
Qed.

Lemma executar_evolui op w : evolui w (executar op w).
Proof.
  destruct op as [c|r v|r v|r v|r v|r v|r|r|t|e v].
  - unfold executar.
    destruct (Str.vazia c || Str.vazia (Str.strip c)) eqn:E.
    + rewrite Pedido_init_erro by exact E. apply evolui_refl.
    + rewrite Pedido_init_ok by exact E. apply evolui_pedido.
  - destruct (objetos w !! r) as [p|] eqn:E;
      [|rewrite (executar_sem_objeto (DefinirStatus r v) w E); apply evolui_refl].
    unfold executar. destruct (e_status v) eqn:Ev.
    + destruct v; try discriminate.
      rewrite (set_status_ok _ _ _ _ E). simpl.
      now apply evolui_objeto with (p := p).
    + rewrite set_status_erro by exact Ev. apply evolui_refl.
  - destruct (objetos w !! r) as [p|] eqn:E;
      [|rewrite (executar_sem_objeto (AdicionarObserver r v) w E); apply evolui_refl].
    unfold executar. destruct v; try apply evolui_refl.
    rewrite (adicionar_observer_ok _ _ _ E). simpl.
    destruct (contem _ _) eqn:Ec; [apply evolui_refl|].
    apply evolui_escrita with (p := p); auto. simpl. intros Hnd.
    apply List.NoDup_app; [exact Hnd | constructor; [intros []|constructor] |].
    intros x Hx [->|[]]. apply contem_iff in Hx. congruence.
  - destruct (objetos w !! r) as [p|] eqn:E;
      [|rewrite (executar_sem_objeto (RemoverObserver r v) w E); apply evolui_refl].
    unfold executar. rewrite (remover_observer_ok _ _ _ E). simpl.
    destruct (contem _ _); [|apply evolui_refl].
    apply evolui_escrita with (p := p); auto. simpl. apply remove_NoDup.
  - destruct (objetos w !! r) as [p|] eqn:E;
      [|rewrite (executar_sem_objeto (AdicionarItem r v) w E); apply evolui_refl].
    unfold executar. destruct v; try apply evolui_refl.
    rewrite (adicionar_item_ok _ _ _ E). simpl.
    now apply evolui_escrita with (p := p).
  - destruct (objetos w !! r) as [p|] eqn:E;
      [|rewrite (executar_sem_objeto (DefinirPagamento r v) w E); apply evolui_refl].
    unfold executar. destruct v; try apply evolui_refl.
    rewrite (definir_pagamento_ok _ _ _ E). simpl.
    now apply evolui_escrita with (p := p).
  - destruct (objetos w !! r) as [p|] eqn:E;
      [|rewrite (executar_sem_objeto (ProcessarPagamento r) w E); apply evolui_refl].
    unfold executar. rewrite (processar_pagamento_ok _ _ _ E).
    destruct (Pedido._pagamento p) as [e|]; [|apply evolui_refl].
    destruct (Pedido.itens p); [apply evolui_refl|].
    destruct (pagar_so_imprime e (sum (map preco (b :: l))) w) as [l' ->].
    constructor.
  - destruct (objetos w !! r) as [p|] eqn:E;
      [|rewrite (executar_sem_objeto (Total r) w E); apply evolui_refl].
    unfold executar. rewrite (total_ok _ _ _ E). apply evolui_refl.
  - unfold executar. destruct (criar_so_imprime t w) as [l' ->]. constructor.
  - unfold executar. destruct (pagar_so_imprime e v w) as [l' ->]. constructor.
Qed.

(** ** What every run keeps true *)

Lemma bem_formado_inicial : bem_formado mundo_inicial.
Proof. split; [reflexivity|]. intros r p H. discriminate. Qed.

Lemma bem_formado_evolui w w' : evolui w w' -> bem_formado w -> bem_formado w'.
Proof.
  intros He [Hc Ho]. destruct He as [l|r p q l H Hid Hnd|c].
  - now split.
  - split; simpl.
    + now rewrite length_insert.
    + intros r' p' Hr.
      destruct (decide (r = r')) as [<-|Hne].
      * rewrite list_lookup_insert_eq in Hr by now apply lookup_lt_Some in H.
        injection Hr as <-. destruct (Ho r p H) as [Hi Hn].
        split; [now rewrite Hid | now apply Hnd].
      * rewrite list_lookup_insert_ne in Hr by exact Hne. now apply Ho.
  - split; simpl.
    + rewrite length_app, Hc. simpl. lia.
    + intros r p Hr.
      apply lookup_app_Some in Hr as [Hl|[Hge Hl]]; [now apply Ho|].
      destruct (r - length (objetos w))%nat as [|k] eqn:Ek; [|discriminate].
      injection Hl as <-. simpl. split; [lia | constructor].
Qed.

Lemma bem_formado_correr ops : forall w, bem_formado w -> bem_formado (correr ops w).
Proof.
  induction ops as [|op ops IH]; intros w Hw; simpl; [exact Hw|].
  apply IH. apply (bem_formado_evolui w); [apply executar_evolui | exact Hw].
Qed.


(** A step keeps the orders that exist, and their identifiers. *)
Lemma evolui_identificadores w w' :
  evolui w w' -> exists l, identificadores w' = (identificadores w ++ l)%list.
Proof.
  intros [l|r p q l H Hid Hnd|c]; unfold identificadores; simpl.
  - exists []. now rewrite app_nil_r.
  - exists []. rewrite app_nil_r.
    apply list_eq. intros i. rewrite !list_lookup_fmap.
    destruct (decide (r = i)) as [<-|Hne].
    + rewrite list_lookup_insert_eq by now apply lookup_lt_Some in H.
      rewrite H. simpl. now rewrite Hid.
    + now rewrite list_lookup_insert_ne.
  - eexists. now rewrite map_app.
Qed.

(** ** The counter of identifiers *)

(** Only a construction that is given an acceptable name moves the
    counter, by one. *)
Lemma executar_contador op w :
  Pedido_contador (executar op w)
  = (Pedido_contador w + (if constroi op then 1 else 0))%Z.
Proof.
  assert (H0 : forall x : Mundo, Pedido_contador x = (Pedido_contador x + 0)%Z)
    by (intros; lia).
  destruct op as [c|r v|r v|r v|r v|r v|r|r|t|e v]; cbn [constroi].
  - unfold executar. rewrite <- criar_guarda.
    destruct (Str.vazia c || Str.vazia (Str.strip c)) eqn:E.
    + rewrite Pedido_init_erro by exact E. apply H0.
    + rewrite Pedido_init_ok by exact E. reflexivity.
  - destruct (objetos w !! r) as [p|] eqn:E;
      [|rewrite (executar_sem_objeto (DefinirStatus r v) w E); apply H0].
    unfold executar. destruct (e_status v) eqn:Ev.
    + destruct v; try discriminate.
      rewrite (set_status_ok _ _ _ _ E). simpl. lia.
    + rewrite set_status_erro by exact Ev. apply H0.
  - destruct (objetos w !! r) as [p|] eqn:E;
      [|rewrite (executar_sem_objeto (AdicionarObserver r v) w E); apply H0].
    unfold executar. destruct v; try apply H0.
    rewrite (adicionar_observer_ok _ _ _ E). simpl.
    destruct (contem _ _); simpl; lia.
  - destruct (objetos w !! r) as [p|] eqn:E;
      [|rewrite (executar_sem_objeto (RemoverObserver r v) w E); apply H0].
    unfold executar. rewrite (remover_observer_ok _ _ _ E). simpl.
    destruct (contem _ _); simpl; lia.
  - destruct (objetos w !! r) as [p|] eqn:E;
      [|rewrite (executar_sem_objeto (AdicionarItem r v) w E); apply H0].
    unfold executar. destruct v; try apply H0.
    rewrite (adicionar_item_ok _ _ _ E). simpl. lia.
  - destruct (objetos w !! r) as [p|] eqn:E;
      [|rewrite (executar_sem_objeto (DefinirPagamento r v) w E); apply H0].
    unfold executar. destruct v; try apply H0.
    rewrite (definir_pagamento_ok _ _ _ E). simpl. lia.
  - destruct (objetos w !! r) as [p|] eqn:E;
      [|rewrite (executar_sem_objeto (ProcessarPagamento r) w E); apply H0].
    unfold executar. rewrite (processar_pagamento_ok _ _ _ E).
    destruct (Pedido._pagamento p) as [e|]; [|apply H0].
    destruct (Pedido.itens p); [apply H0|].
    destruct (pagar_so_imprime e (sum (map preco (b :: l))) w) as [l' ->]. simpl. lia.
  - destruct (objetos w !! r) as [p|] eqn:E;
      [|rewrite (executar_sem_objeto (Total r) w E); apply H0].
    unfold executar. rewrite (total_ok _ _ _ E). apply H0.
  - unfold executar. destruct (criar_so_imprime t w) as [l' ->]. simpl. lia.
  - unfold executar. destruct (pagar_so_imprime e v w) as [l' ->]. simpl. lia.
Qed.

Lemma correr_contador ops : forall w,
  Pedido_contador (correr ops w) = (Pedido_contador w + Z.of_nat (construidos ops))%Z.
Proof.
  induction ops as [|op ops IH]; intros w; simpl; [lia|].
  rewrite IH, executar_contador. destruct (constroi op); lia.
Qed.

(** In a well-formed world the identifiers are 1, 2, ... in the order of
    creation. *)
Lemma bem_formado_identificadores w :
  bem_formado w ->
  identificadores w = map Z.of_nat (seq 1 (length (objetos w))).
Proof.
  intros [_ Ho]. unfold identificadores. apply list_eq. intros i.
  rewrite !list_lookup_fmap. destruct (objetos w !! i) as [p|] eqn:E; simpl.
  - destruct (Ho i p E) as [-> _].
    rewrite lookup_seq_lt by (now apply lookup_lt_Some in E). reflexivity.
  - apply lookup_ge_None in E. now rewrite lookup_seq_ge.
Qed.

(** ** Decorator *)

Lemma join_vazio_cons x l : Str.join "" (x :: l) = x ++ Str.join "" l.
Proof.
  destruct l as [|y l]; simpl; [|reflexivity].
  induction x as [|c x IH]; simpl; [reflexivity | now rewrite <- IH].
Qed.

Lemma append_assoc (a b c : string) : (a ++ b) ++ c = a ++ (b ++ c).
Proof. induction a as [|x a IH]; simpl; [reflexivity | now rewrite IH]. Qed.

Lemma append_vazio (a : string) : a ++ "" = a.
Proof. induction a as [|x a IH]; simpl; [reflexivity | now rewrite IH]. Qed.

Lemma preco_envolver i b : preco (envolver i b) = (preco b + acrescimo i)%float.
Proof. destruct i; reflexivity. Qed.

Lemma descricao_envolver i b : descricao (envolver i b) = descricao b ++ sufixo i.
Proof. destruct i; reflexivity. Qed.

(** C1. For every drink and every sequence of ingredients wrapped around
    it, in the order of wrapping: the price is the price of the drink plus
    the increment of each ingredient, added one after the other as the
    wrappers do, and the description is the description of the drink
    followed by the suffix of each ingredient, the last one applied last.
    The wrappers are those the constructors build.  No addition rounds: as
    long as the price in half reais fits in the 53 bits of a binary64
    mantissa, the price is the binary64 number that is exactly the price of
    the drink plus the sum of the increments. *)
Theorem decorar_preco_descricao (base : Bebida) (l : list Ingrediente) :
  preco (decorar base l)
  = fold_left (fun total i => (total + acrescimo i)%float) l (preco base)
  /\ descricao (decorar base l) = descricao base ++ Str.join "" (map sufixo l)
  /\ (forall i b,
        IngredienteDecorator_init (envolver i) (OBebida b) = Retorna (envolver i b))
  /\ ((meios base + soma_Z (map meios_acrescimo l) < 2 ^ 53)%Z ->
      Prim2SF (preco (decorar base l))
      = canonico (meios base + soma_Z (map meios_acrescimo l))
      /\ Prim2SF (preco base) = canonico (meios base)
      /\ Forall (fun i => Prim2SF (acrescimo i) = canonico (meios_acrescimo i)) l).
Proof.
  split; [|split; [|split]].
  - unfold decorar. revert base.
    induction l as [|i l IH]; intros base; cbn [fold_left]; [reflexivity|].
    now rewrite IH, preco_envolver.
  - revert base. induction l as [|i l IH]; intros base.
    + simpl. now rewrite append_vazio.
    + cbn [map]. rewrite join_vazio_cons. unfold decorar in *. cbn [fold_left].
      now rewrite IH, descricao_envolver, append_assoc.
  - reflexivity.
  - intros H. split; [|split].
    + rewrite <- meios_decorar. apply preco_exato. now rewrite meios_decorar.
    + apply preco_exato.
      assert (0 <= soma_Z (map meios_acrescimo l))%Z; [|lia].
      clear H. induction l as [|i l IH]; cbn [map]; [unfold soma_Z; simpl; lia|].
      rewrite soma_Z_cons. destruct i; simpl; lia.
    + apply Forall_forall. intros i _. destruct i; reflexivity.
Qed.

Lemma decorar_preco_descricao_witness :
  Prim2SF (preco (Chocolate (Leite Latte))) = canonico 22
  /\ Prim2SF 11.0 = canonico 22
  /\ Prim2SF Precos.LATTE = canonico 15.
Proof.
  destruct (decorar_preco_descricao Latte [ILeite; IChocolate]) as (_ & _ & _ & H).
  destruct (H eq_refl) as (H1 & H2 & _).
  split; [exact H1|]. split; [exact H1 | exact H2].
Defined.

Example decorar_latte :
  preco (decorar Latte [ILeite; IChocolate]) = 11.0%float
  /\ descricao (decorar Latte [ILeite; IChocolate]) = "Latte + Leite + Chocolate"
  /\ decorar Latte [ILeite; IChocolate] = Chocolate (Leite Latte)
  /\ preco (decorar Cappuccino [IChantilly]) = 10.5%float
  /\ descricao (decorar Espresso []) = "Espresso".
Proof. repeat split; reflexivity. Qed.

(** ** Observer: a write to the status *)

Lemma chamados_rodada (self : nat) p l : chamados (rodada self p l) = l.
Proof.
  induction l as [|o l IH]; simpl; [reflexivity|].
  assert (H : forall k, chamados (reacao o (Pedido.id p) (Pedido._status p) ++ k)%list
                        = chamados k).
  { intros k. destruct o, (Pedido._status p); reflexivity. }
  now rewrite H, IH.
Qed.

(** C2. A write to the status of a live order checks the value first: a
    value that is no [StatusPedido] raises a [TypeError].  For a status, the
    write returns, the order holds the new status, and the events added to
    the trace are one round over the observers of the order, in the order
    they were attached: the call of each observer, once, followed by what
    that observer prints on reading the identifier and the new status from
    the order it is given. *)
Theorem set_status_notifica (w : Mundo) (self : nat) (p : Pedido.t) (v : objeto) :
  objetos w !! self = Some p ->
  (e_status v = false ->
   fst (set_status self v w)
   = Levanta (TypeError "Status deve ser uma instância de StatusPedido"))
  /\ (forall s, v = OStatus s ->
      set_status self v w
      = (Retorna tt,
         com_eventos (rodada self (com_status s p) (Pedido._observers p))
           (com_objeto self (com_status s p) w))
      /\ objetos (snd (set_status self v w)) !! self = Some (com_status s p)
      /\ Pedido._status (com_status s p) = s
      /\ Pedido._observers (com_status s p) = Pedido._observers p
      /\ chamados (rodada self (com_status s p) (Pedido._observers p))
         = Pedido._observers p).
Proof.
  intros H. split.
  - intros Hv. now rewrite set_status_erro.
  - intros s ->. rewrite (set_status_ok _ _ _ _ H). repeat split.
    + simpl. apply list_lookup_insert_eq. now apply lookup_lt_Some in H.
    + apply chamados_rodada.
Qed.

Lemma set_status_notifica_witness :
  fst (set_status 0 (OStr "Pronto") mundo_ana)
  = Levanta (TypeError "Status deve ser uma instância de StatusPedido")
  /\ eventos (snd (set_status 0 (OStatus PRONTO) mundo_ana))
     = [Atualizar (NotificadorCliente "Ana") 0;
        Print [Texto "📱 SMS para Ana: Seu pedido #"; Inteiro 1; Texto " está PRONTO!"];
        Atualizar PainelPedidos 0;
        Print [Texto "📺 Painel atualizado: Pedido #"; Inteiro 1; Texto " -> Pronto"];
        Atualizar SistemaMetricas 0].
Proof.
  pose proof (set_status_notifica mundo_ana 0 pedido_ana) as H.
  split.
  - apply (H (OStr "Pronto") eq_refl). reflexivity.
  - destruct (H (OStatus PRONTO) eq_refl) as [_ H2].
    destruct (H2 PRONTO eq_refl) as [-> _]. reflexivity.
Defined.

(** C10. A write of a value that is no [StatusPedido] raises the
    [TypeError] before anything else happens: the world is the one before
    the write, so the order keeps its status and the trace gains no event,
    no call of an observer among them. *)
Theorem set_status_invalido (w : Mundo) (self : nat) (v : objeto) :
  e_status v = false ->
  set_status self v w
  = (Levanta (TypeError "Status deve ser uma instância de StatusPedido"), w)
  /\ (forall p, objetos w !! self = Some p ->
        objetos (snd (set_status self v w)) !! self = Some p)
  /\ eventos (snd (set_status self v w)) = eventos w.
Proof.
  intros H. rewrite set_status_erro by exact H. repeat split. intros p Hp. exact Hp.
Qed.

Lemma set_status_invalido_witness :
  set_status 0 (OStr "Pronto") mundo_ana
  = (Levanta (TypeError "Status deve ser uma instância de StatusPedido"), mundo_ana)
  /\ objetos (snd (set_status 0 (OStr "Pronto") mundo_ana)) !! 0%nat = Some pedido_ana
  /\ eventos (snd (set_status 0 ONone mundo_ana)) = [].
Proof.
  destruct (set_status_invalido mundo_ana 0 (OStr "Pronto") eq_refl) as (H1 & H2 & _).
  destruct (set_status_invalido mundo_ana 0 ONone eq_refl) as (_ & _ & H3).
  split; [exact H1 | split; [apply H2; reflexivity | exact H3]].
Defined.

(** ** Strategy: payment through the order *)

Lemma pagar_objetos e v w : objetos (snd (pagar e v w)) = objetos w.
Proof. destruct (pagar_so_imprime e v w) as [l ->]. reflexivity. Qed.

(** C3. [processar_pagamento] on a live order: with no payment method set
    it raises a [RuntimeError]; with a method and no item it raises a
    [RuntimeError]; with a method and items it is the call of [pagar] of
    the method on the total of the order, with the same result and the
    same lines printed, and it leaves every order as it was, the status
    among the rest. *)
Theorem processar_pagamento_spec (w : Mundo) (self : nat) (p : Pedido.t) :
  objetos w !! self = Some p ->
  (Pedido._pagamento p = None ->
   processar_pagamento self w
   = (Levanta (RuntimeError "Nenhuma forma de pagamento definida!"), w))
  /\ (forall e, Pedido._pagamento p = Some e -> Pedido.itens p = [] ->
      processar_pagamento self w
      = (Levanta (RuntimeError "Pedido vazio! Adicione itens antes de pagar."), w))
  /\ (forall e, Pedido._pagamento p = Some e -> Pedido.itens p <> [] ->
      total self w = (Retorna (sum (map preco (Pedido.itens p))), w)
      /\ processar_pagamento self w = pagar e (sum (map preco (Pedido.itens p))) w)
  /\ objetos (snd (processar_pagamento self w)) = objetos w.
Proof.
  intros H. rewrite (processar_pagamento_ok _ _ _ H). repeat split.
  - intros ->. reflexivity.
  - intros e -> ->. reflexivity.
  - now apply total_ok.
  - destruct (Pedido.itens p); [congruence|]. now rewrite H0.
  - destruct (Pedido._pagamento p) as [e|]; [|reflexivity].
    destruct (Pedido.itens p); [reflexivity|]. apply pagar_objetos.
Qed.

Lemma processar_pagamento_spec_witness :
  processar_pagamento 0 mundo_tres
  = (Levanta (RuntimeError "Nenhuma forma de pagamento definida!"), mundo_tres)
  /\ processar_pagamento 1 mundo_tres
     = (Levanta (RuntimeError "Pedido vazio! Adicione itens antes de pagar."), mundo_tres)
  /\ processar_pagamento 2 mundo_tres = pagar (PagamentoDinheiro 10) 9 mundo_tres
  /\ fst (processar_pagamento 2 mundo_tres) = Retorna true
  /\ objetos (snd (processar_pagamento 2 mundo_tres)) !! 2%nat = Some pedido_caio.
Proof.
  destruct (processar_pagamento_spec mundo_tres 0
              {| Pedido.id := 1; Pedido.cliente := "Ana"; Pedido.itens := [];
                 Pedido._status := RECEBIDO; Pedido._observers := [];
                 Pedido._pagamento := None |} eq_refl) as (H1 & _).
  destruct (processar_pagamento_spec mundo_tres 1 pedido_bia eq_refl) as (_ & H2 & _).
  destruct (processar_pagamento_spec mundo_tres 2 pedido_caio eq_refl) as (_ & _ & H3 & H4).
  split; [exact (H1 eq_refl)|].
  split; [exact (H2 _ eq_refl eq_refl)|].
  destruct (H3 _ eq_refl ltac:(discriminate)) as [_ H5].
  split; [exact H5|]. split; [now rewrite H5|]. now rewrite H4.
Defined.

(** ** Strategy: the three payment methods *)

(** C4. Cash.  Construction with an amount handed over that is zero or
    less raises a [ValueError], and with a positive one it gives the
    strategy.  [pagar] of an amount that is zero or less raises a
    [ValueError]; of a positive amount that the money handed over covers,
    it returns [True] and prints the money handed over and then, when it
    is positive, the change, which is the money handed over minus the
    amount; of a positive amount above the money handed over, it returns
    [False], raises nothing and prints what is missing. *)
Theorem dinheiro_spec (entregue valor : float) (w : Mundo) :
  ((entregue <=? 0)%float = true ->
   PagamentoDinheiro_init entregue
   = Levanta (ValueError "Valor entregue deve ser positivo"))
  /\ ((0 <? entregue)%float = true ->
      PagamentoDinheiro_init entregue = Retorna (PagamentoDinheiro entregue))
  /\ ((valor <=? 0)%float = true ->
      pagar (PagamentoDinheiro entregue) valor w
      = (Levanta (ValueError "Valor de pagamento deve ser positivo"), w))
  /\ ((0 <? valor)%float = true -> (valor <=? entregue)%float = true ->
      pagar (PagamentoDinheiro entregue) valor w
      = (Retorna true,
         com_eventos
           (Print [Texto "Pagamento em dinheiro: R$"; Reais entregue]
            :: if (0 <? entregue - valor)%float
               then [Print [Texto "Troco: R$"; Reais (entregue - valor)]]
               else [])
           w))
  /\ ((0 <? valor)%float = true -> (entregue <? valor)%float = true ->
      pagar (PagamentoDinheiro entregue) valor w
      = (Retorna false,
         com_eventos
           [Print [Texto "Valor insuficiente! Faltam R$"; Reais (valor - entregue)]]
           w)).
Proof.
  repeat split.
  - intros H. unfold PagamentoDinheiro_init. now rewrite H.
  - intros H. unfold PagamentoDinheiro_init. now rewrite (ltb_leb_false _ _ H).
  - intros H. unfold pagar. now rewrite H.
  - intros H1 H2. unfold pagar. rewrite (ltb_leb_false _ _ H1), H2.
    unfold _log_pagamento, bind. rewrite print_ok.
    destruct (0 <? entregue - valor)%float.
    + rewrite print_ok. unfold ret. now rewrite com_eventos_app.
    + reflexivity.
  - intros H1 H2. unfold pagar. rewrite (ltb_leb_false _ _ H1), (ltb_leb_false _ _ H2).
    reflexivity.
Qed.

Lemma dinheiro_spec_witness :
  PagamentoDinheiro_init 0 = Levanta (ValueError "Valor entregue deve ser positivo")
  /\ PagamentoDinheiro_init 10 = Retorna (PagamentoDinheiro 10)
  /\ pagar (PagamentoDinheiro 10) (-1) mundo_inicial
     = (Levanta (ValueError "Valor de pagamento deve ser positivo"), mundo_inicial)
  /\ pagar (PagamentoDinheiro 10) 7.5 mundo_inicial
     = (Retorna true,
        com_eventos [Print [Texto "Pagamento em dinheiro: R$"; Reais 10];
                     Print [Texto "Troco: R$"; Reais 2.5]] mundo_inicial)
  /\ pagar (PagamentoDinheiro 5) 7.5 mundo_inicial
     = (Retorna false,
        com_eventos [Print [Texto "Valor insuficiente! Faltam R$"; Reais 2.5]]
          mundo_inicial).
Proof.
  destruct (dinheiro_spec 0 1 mundo_inicial) as (H1 & _).
  destruct (dinheiro_spec 10 (-1) mundo_inicial) as (_ & H2 & H3 & _).
  destruct (dinheiro_spec 10 7.5 mundo_inicial) as (_ & _ & _ & H4 & _).
  destruct (dinheiro_spec 5 7.5 mundo_inicial) as (_ & _ & _ & _ & H5).
  split; [exact (H1 eq_refl)|]. split; [exact (H2 eq_refl)|].
  split; [exact (H3 eq_refl)|]. split; [exact (H4 eq_refl eq_refl)|].
  exact (H5 eq_refl eq_refl).
Defined.

(** C9. Card and PIX.  [pagar] of an amount that is zero or less raises a
    [ValueError], with either method; of a positive amount it returns
    [True], the card printing one line, with the last four characters of
    its number, and PIX two. *)
Theorem cartao_pix_spec (numero chave : string) (valor : float) (w : Mundo) :
  ((valor <=? 0)%float = true ->
   pagar (PagamentoCartao numero) valor w
   = (Levanta (ValueError "Valor de pagamento deve ser positivo"), w)
   /\ pagar (PagamentoPix chave) valor w
      = (Levanta (ValueError "Valor de pagamento deve ser positivo"), w))
  /\ ((0 <? valor)%float = true ->
      pagar (PagamentoCartao numero) valor w
      = (Retorna true,
         com_eventos [Print [Texto "Processando pagamento de R$"; Reais valor;
                             Texto " no cartão **"; Texto (Str.ultimos 4 numero)]] w)
      /\ pagar (PagamentoPix chave) valor w
         = (Retorna true,
            com_eventos [Print [Texto "PIX de R$"; Reais valor;
                                Texto " enviado para "; Texto chave];
                         Print [Texto "QR Code gerado! Aguardando confirmação..."]] w)).
Proof.
  split; intros H; unfold pagar.
  - now rewrite H.
  - rewrite (ltb_leb_false _ _ H). split; [reflexivity|].
    unfold _log_pagamento, bind, ret. rewrite !print_ok. now rewrite com_eventos_app.
Qed.

Lemma cartao_pix_spec_witness :
  pagar (PagamentoCartao "4111111111111111") 0 mundo_inicial
  = (Levanta (ValueError "Valor de pagamento deve ser positivo"), mundo_inicial)
  /\ pagar (PagamentoPix "cafeteria@pix.com") (-3) mundo_inicial
     = (Levanta (ValueError "Valor de pagamento deve ser positivo"), mundo_inicial)
  /\ pagar (PagamentoCartao "4111111111111111") 26.5 mundo_inicial
     = (Retorna true,
        com_eventos [Print [Texto "Processando pagamento de R$"; Reais 26.5;
                            Texto " no cartão **"; Texto "1111"]] mundo_inicial)
  /\ fst (pagar (PagamentoPix "cafeteria@pix.com") 26.5 mundo_inicial) = Retorna true.
Proof.
  destruct (cartao_pix_spec "4111111111111111" "cafeteria@pix.com" 0 mundo_inicial)
    as (H1 & _).
  destruct (cartao_pix_spec "4111111111111111" "cafeteria@pix.com" (-3) mundo_inicial)
    as (H2 & _).
  destruct (cartao_pix_spec "4111111111111111" "cafeteria@pix.com" 26.5 mundo_inicial)
    as (_ & H3).
  split; [exact (proj1 (H1 eq_refl))|]. split; [exact (proj2 (H2 eq_refl))|].
  split; [exact (proj1 (H3 eq_refl))|]. now rewrite (proj2 (H3 eq_refl)).
Defined.

(** ** Factory: normalisation of the key *)

Lemma get_None k d :
  FabricaBebidas.get k d = None <-> ~ In k (FabricaBebidas.keys d).
Proof.
  induction d as [|[k' v] d IH]; simpl; [tauto|].
  destruct (String.eqb_spec k' k) as [->|Hne].
  - split; [discriminate | tauto].
  - rewrite IH. tauto.
Qed.

(** C5. [FabricaBebidas.criar].  A key that is empty or white space only
    raises a [ValueError].  A key that, trimmed and in lower case, is a
    registered key gives what that key itself gives: the drink of its
    factory, after the line that announces the preparation.  A key that,
    trimmed and in lower case, is not registered (and is not white space
    only) raises a [ValueError] whose message quotes the key as given and
    lists the registered keys, which are espresso, cappuccino and latte.
    White space is every character that [str.strip()] removes, of one
    byte or more; lower case is that of [Str.lower], which finds among the
    registered keys what [str.lower()] finds. *)
Theorem criar_spec (tipo : string) (w : Mundo) :
  (so_espacos tipo = true ->
   FabricaBebidas.criar tipo w
   = (Levanta (ValueError "Tipo de bebida não pode ser vazio"), w))
  /\ (forall k f, In (k, f) FabricaBebidas._fabricas ->
      Str.lower (Str.strip tipo) = k ->
      FabricaBebidas.criar tipo w = FabricaBebidas.criar k w
      /\ FabricaBebidas.criar tipo w
         = (Retorna (criar_bebida f),
            com_eventos [Print [Texto ("Preparando: " ++ descricao (criar_bebida f))]] w))
  /\ (so_espacos tipo = false ->
      ~ In (Str.lower (Str.strip tipo)) FabricaBebidas.tipos_disponiveis ->
      FabricaBebidas.criar tipo w
      = (Levanta (ValueError ("Tipo de bebida desconhecido: '" ++ tipo
                              ++ "'. Tipos válidos: espresso, cappuccino, latte")), w))
  /\ FabricaBebidas.tipos_disponiveis = ["espresso"; "cappuccino"; "latte"].
Proof.
  split; [|split; [|split]].
  - intros H. unfold FabricaBebidas.criar. now rewrite criar_guarda, H.
  - intros k f Hin Hk.
    assert (Hs : so_espacos tipo = false).
    { destruct (so_espacos tipo) eqn:E; [|reflexivity].
      rewrite <- strip_vazia in E. destruct (Str.strip tipo); [|discriminate].
      simpl in Hk. subst k. simpl in Hin.
      destruct Hin as [H|[H|[H|[]]]]; discriminate. }
    assert (Ht : FabricaBebidas.criar tipo w
                 = (Retorna (criar_bebida f),
                    com_eventos [Print [Texto ("Preparando: " ++ descricao (criar_bebida f))]] w)).
    { unfold FabricaBebidas.criar. rewrite criar_guarda, Hs, strip_lower, Hk.
      simpl in Hin. destruct Hin as [H|[H|[H|[]]]]; injection H as <- <-; reflexivity. }
    split; [|exact Ht]. rewrite Ht.
    simpl in Hin. destruct Hin as [H|[H|[H|[]]]]; injection H as <- <-; reflexivity.
  - intros Hs Hn. unfold FabricaBebidas.criar.
    rewrite criar_guarda, Hs, strip_lower.
    apply get_None in Hn. rewrite Hn. reflexivity.
  - reflexivity.
Qed.

Lemma criar_spec_witness :
  FabricaBebidas.criar "ESPRESSO " mundo_inicial = FabricaBebidas.criar "espresso" mundo_inicial
  /\ FabricaBebidas.criar "ESPRESSO " mundo_inicial
     = (Retorna Espresso, com_eventos [Print [Texto "Preparando: Espresso"]] mundo_inicial)
  /\ FabricaBebidas.criar (emsp ++ "Latte" ++ nbsp) mundo_inicial
     = (Retorna Latte, com_eventos [Print [Texto "Preparando: Latte"]] mundo_inicial)
  /\ FabricaBebidas.criar "" mundo_inicial
     = (Levanta (ValueError "Tipo de bebida não pode ser vazio"), mundo_inicial)
  /\ FabricaBebidas.criar "   " mundo_inicial
     = (Levanta (ValueError "Tipo de bebida não pode ser vazio"), mundo_inicial)
  /\ FabricaBebidas.criar (nbsp ++ " " ++ emsp) mundo_inicial
     = (Levanta (ValueError "Tipo de bebida não pode ser vazio"), mundo_inicial)
  /\ FabricaBebidas.criar "mocha" mundo_inicial
     = (Levanta (ValueError
          "Tipo de bebida desconhecido: 'mocha'. Tipos válidos: espresso, cappuccino, latte"),
        mundo_inicial)
  /\ FabricaBebidas.criar "LATTÉ" mundo_inicial
     = (Levanta (ValueError
          "Tipo de bebida desconhecido: 'LATTÉ'. Tipos válidos: espresso, cappuccino, latte"),
        mundo_inicial).
Proof.
  destruct (criar_spec "ESPRESSO " mundo_inicial) as (_ & H1 & _).
  destruct (criar_spec (emsp ++ "Latte" ++ nbsp) mundo_inicial) as (_ & H1' & _).
  destruct (criar_spec "" mundo_inicial) as (H2 & _).
  destruct (criar_spec "   " mundo_inicial) as (H3 & _).
  destruct (criar_spec (nbsp ++ " " ++ emsp) mundo_inicial) as (H3' & _).
  destruct (criar_spec "mocha" mundo_inicial) as (_ & _ & H4 & _).
  destruct (criar_spec "LATTÉ" mundo_inicial) as (_ & _ & H4' & _).
  destruct (H1 "espresso" EspressoFactory (or_introl eq_refl) eq_refl) as [H5 H6].
  destruct (H1' "latte" LatteFactory (or_intror (or_intror (or_introl eq_refl))) eq_refl)
    as [_ H6'].
  split; [exact H5|]. split; [exact H6|]. split; [exact H6'|]. split; [exact (H2 eq_refl)|].
  split; [exact (H3 eq_refl)|]. split; [exact (H3' eq_refl)|]. split.
  - apply (H4 eq_refl). simpl. intros [H|[H|[H|[]]]]; discriminate.
  - apply (H4' eq_refl). simpl. intros [H|[H|[H|[]]]]; discriminate.
Defined.

(** ** Observer: attaching and removing *)






(** ** Identifiers of the orders *)

Lemma correr_app ops1 ops2 w : correr (ops1 ++ ops2) w = correr ops2 (correr ops1 w).
Proof. unfold correr. apply fold_left_app. Qed.

(** C7. In the world any run reaches from the start of the process, the
    identifiers of the orders are 1, 2, ..., [n] in the order of their
    creation, where [n] counts the constructions of the run that were
    given an acceptable name, and the counter stands at [n]: the order
    created first has identifier 1 and the one created [k]th identifier
    [k]; so orders created later have greater identifiers, and no two
    orders share one.  A construction that comes next, with an acceptable
    name, returns a new order whose identifier is [n + 1].  An identifier
    is given at construction and no later step changes it: a step keeps
    the identifiers there are, in place, and adds at most new ones after
    them. *)
Theorem identificadores_crescentes (ops : list operacao) :
  identificadores (correr ops mundo_inicial) = map Z.of_nat (seq 1 (construidos ops))
  /\ Pedido_contador (correr ops mundo_inicial) = Z.of_nat (construidos ops)
  /\ (forall cliente, so_espacos cliente = false ->
        exists p,
          Pedido_init cliente (correr ops mundo_inicial)
          = (Retorna (construidos ops), com_pedido cliente (correr ops mundo_inicial))
          /\ objetos (com_pedido cliente (correr ops mundo_inicial)) !! construidos ops
             = Some p
          /\ Pedido.id p = (Z.of_nat (construidos ops) + 1)%Z
          /\ identificadores (correr (ops ++ [NovoPedido cliente]) mundo_inicial)
             = (identificadores (correr ops mundo_inicial)
                ++ [(Z.of_nat (construidos ops) + 1)%Z])%list)
  /\ (forall (r : nat) p, objetos (correr ops mundo_inicial) !! r = Some p ->
        Pedido.id p = (Z.of_nat r + 1)%Z)
  /\ (forall (i j : nat) pi pj,
        objetos (correr ops mundo_inicial) !! i = Some pi ->
        objetos (correr ops mundo_inicial) !! j = Some pj ->
        (i < j)%nat -> (Pedido.id pi < Pedido.id pj)%Z)
  /\ (forall (i j : nat) pi pj,
        objetos (correr ops mundo_inicial) !! i = Some pi ->
        objetos (correr ops mundo_inicial) !! j = Some pj ->
        Pedido.id pi = Pedido.id pj -> i = j)
  /\ (forall op, exists l,
        identificadores (correr (ops ++ [op]) mundo_inicial)
        = (identificadores (correr ops mundo_inicial) ++ l)%list).
Proof.
  pose proof (bem_formado_correr ops _ bem_formado_inicial) as Hbf.
  pose proof Hbf as [Hc Ho].
  pose proof (correr_contador ops mundo_inicial) as Hn. cbn [mundo_inicial Pedido_contador] in Hn.
  assert (Hlen : length (objetos (correr ops mundo_inicial)) = construidos ops) by lia.
  assert (Hid : forall (r : nat) p, objetos (correr ops mundo_inicial) !! r = Some p ->
                  Pedido.id p = (Z.of_nat r + 1)%Z).
  { intros r p H. destruct (Ho r p H) as [-> _]. lia. }
  split; [now rewrite (bem_formado_identificadores _ Hbf), Hlen|].
  split; [lia|]. split; [|split; [exact Hid|split; [|split]]].
  - intros cliente Hs.
    assert (E : Pedido_init cliente (correr ops mundo_inicial)
                = (Retorna (construidos ops), com_pedido cliente (correr ops mundo_inicial))).
    { rewrite <- Hlen. apply Pedido_init_ok. now rewrite criar_guarda. }
    eexists. split; [exact E|].
    split; [simpl; rewrite lookup_app_r by lia; rewrite Hlen, Nat.sub_diag; reflexivity|].
    split; [simpl; lia|].
    rewrite correr_app. simpl. rewrite E. unfold identificadores. simpl.
    rewrite map_app. simpl. do 3 f_equal. lia.
  - intros i j pi pj Hi Hj Hlt. rewrite (Hid _ _ Hi), (Hid _ _ Hj). lia.
  - intros i j pi pj Hi Hj He. rewrite (Hid _ _ Hi), (Hid _ _ Hj) in He. lia.
  - intros op. rewrite correr_app. simpl. apply evolui_identificadores, executar_evolui.
Qed.

Lemma identificadores_crescentes_witness :
  identificadores (correr [NovoPedido ""; NovoPedido "Ana"; NovoPedido nbsp;
                           DefinirStatus 0 (OStatus PRONTO); NovoPedido " Bia ";
                           AdicionarItem 1 (OBebida Latte); NovoPedido "Caio"]
                     mundo_inicial) = [1; 2; 3]%Z
  /\ (exists p,
        Pedido_init "Ana" mundo_inicial = (Retorna 0%nat, com_pedido "Ana" mundo_inicial)
        /\ objetos (com_pedido "Ana" mundo_inicial) !! 0%nat = Some p
        /\ Pedido.id p = 1%Z)
  /\ (exists p w',
        Pedido_init "Davi"
          (correr [NovoPedido "Ana"; NovoPedido "Bia"; NovoPedido "Caio"] mundo_inicial)
        = (Retorna 3%nat, w')
        /\ objetos w' !! 3%nat = Some p
        /\ Pedido.id p = 4%Z).
Proof.
  destruct (identificadores_crescentes
              [NovoPedido ""; NovoPedido "Ana"; NovoPedido nbsp;
               DefinirStatus 0 (OStatus PRONTO); NovoPedido " Bia ";
               AdicionarItem 1 (OBebida Latte); NovoPedido "Caio"]) as (H1 & _).
  destruct (identificadores_crescentes []) as (_ & _ & H2 & _).
  destruct (H2 "Ana" eq_refl) as (p & E & Hl & Hi & _).
  split; [exact H1|]. split; [exists p; auto|].
  destruct (identificadores_crescentes [NovoPedido "Ana"; NovoPedido "Bia"; NovoPedido "Caio"])
    as (_ & _ & H3 & _).
  destruct (H3 "Davi" eq_refl) as (q & E' & Hl' & Hi' & _).
  exists q. eexists. split; [exact E'|]. split; [exact Hl' | exact Hi'].
Defined.

(** ** Total of an order *)

Lemma nao_negativo_preco b : nao_negativo (preco b) = true.
Proof.
  induction b; simpl; try reflexivity; apply add_nao_negativo; auto; reflexivity.
Qed.

Lemma nao_negativo_fold l : forall x,
  nao_negativo x = true -> nao_negativo (fold_left PrimFloat.add (map preco l) x) = true.
Proof.
  induction l as [|b l IH]; intros x Hx; simpl; [exact Hx|].
  apply IH, add_nao_negativo; [exact Hx | apply nao_negativo_preco].
Qed.

Lemma nao_negativo_sum l : nao_negativo (sum (map preco l)) = true.
Proof. apply nao_negativo_fold. reflexivity. Qed.

Lemma sum_app l x : sum (l ++ [x]) = (sum l + x)%float.
Proof. unfold sum. now rewrite fold_left_app. Qed.

(** C8. The total of a live order is the sum of the prices of the items it
    holds at the call, added from left to right starting at zero, and the
    call changes nothing.  No addition rounds: as long as the sum in half
    reais fits in the 53 bits of a binary64 mantissa, the total is the
    binary64 number that is exactly the sum of the prices.  It is zero for
    an order just constructed, and raises nothing.  It is never negative.
    After an item is added, the total is the total before plus the price
    of the item. *)
Theorem total_soma :
  (forall w (self : nat) p, objetos w !! self = Some p ->
     total self w = (Retorna (sum (map preco (Pedido.itens p))), w)
     /\ sum (map preco (Pedido.itens p))
        = fold_left PrimFloat.add (map preco (Pedido.itens p)) 0%float
     /\ (0 <=? sum (map preco (Pedido.itens p)))%float = true
     /\ (sum (map preco (Pedido.itens p)) <? 0)%float = false
     /\ ((soma_Z (map meios (Pedido.itens p)) < 2 ^ 53)%Z ->
         Prim2SF (sum (map preco (Pedido.itens p)))
         = canonico (soma_Z (map meios (Pedido.itens p)))))
  /\ (forall cliente w self w', Pedido_init cliente w = (Retorna self, w') ->
        total self w' = (Retorna 0%float, w'))
  /\ (forall w (self : nat) p b, objetos w !! self = Some p ->
        (adicionar_item self (OBebida b) ;; total self) w
        = (Retorna (sum (map preco (Pedido.itens p)) + preco b)%float,
           com_objeto self (com_itens (Pedido.itens p ++ [b]) p) w)).
Proof.
  split; [|split].
  - intros w self p H. split; [now apply total_ok|]. split; [reflexivity|].
    pose proof (nao_negativo_sum (Pedido.itens p)) as Hn. split; [exact Hn|].
    split; [now apply leb_ltb_false | apply sum_exato].
  - intros cliente w self w' H.
    destruct (Str.vazia cliente || Str.vazia (Str.strip cliente)) eqn:E.
    + rewrite Pedido_init_erro in H by exact E. discriminate.
    + rewrite Pedido_init_ok in H by exact E. injection H as <- <-.
      erewrite total_ok;
        [|simpl; rewrite lookup_app_r by lia; rewrite Nat.sub_diag; reflexivity].
      reflexivity.
  - intros w self p b H. unfold bind. rewrite (adicionar_item_ok _ _ _ H).
    erewrite total_ok by (now apply lookup_com_objeto with (p := p)).
    cbn [com_itens Pedido.itens]. rewrite map_app. cbn [map]. now rewrite sum_app.
Qed.

Lemma total_soma_witness :
  total 2 mundo_tres = (Retorna 9%float, mundo_tres)
  /\ Prim2SF (sum (map preco (Pedido.itens pedido_caio))) = canonico 18
  /\ total 0 (snd (Pedido_init "Ana" mundo_inicial))
     = (Retorna 0%float, snd (Pedido_init "Ana" mundo_inicial))
  /\ fst ((adicionar_item 2 (OBebida (Chantilly Cappuccino)) ;; total 2) mundo_tres)
     = Retorna 19.5%float.
Proof.
  destruct total_soma as (H1 & H2 & H3).
  split; [exact (proj1 (H1 mundo_tres 2%nat pedido_caio eq_refl))|].
  split; [exact (proj2 (proj2 (proj2 (proj2 (H1 mundo_tres 2%nat pedido_caio eq_refl))))
                   eq_refl)|].
  split; [exact (H2 "Ana" mundo_inicial 0%nat _ eq_refl)|].
  now rewrite (H3 mundo_tres 2%nat pedido_caio (Chantilly Cappuccino) eq_refl).
Defined.

(** * Further properties *)

(** ** Construction of orders, notifiers and payment methods *)

(** X1. [Pedido(cliente)] with a name that is empty or white space only
    raises a [ValueError] and leaves the world as it was, the counter of
    identifiers included.  With any other name it returns a new order whose
    identifier is the counter plus one, whose client is the name without
    the white space around it (so not empty, and with no white space at
    either end), with no item, no observer, no payment method and the
    status [RECEBIDO]; the orders there were stay as they were and nothing
    is printed. *)
Theorem Pedido_init_spec (cliente : string) (w : Mundo) :
  (so_espacos cliente = true ->
   Pedido_init cliente w
   = (Levanta (ValueError "Nome do cliente não pode ser vazio"), w))
  /\ (so_espacos cliente = false ->
      exists p,
        Pedido_init cliente w = (Retorna (length (objetos w)), com_pedido cliente w)
        /\ objetos (com_pedido cliente w) !! length (objetos w) = Some p
        /\ Pedido.id p = (Pedido_contador w + 1)%Z
        /\ Pedido.cliente p = Str.strip cliente
        /\ aparada (Pedido.cliente p) /\ Pedido.cliente p <> ""
        /\ Pedido.itens p = [] /\ Pedido._status p = RECEBIDO
        /\ Pedido._observers p = [] /\ Pedido._pagamento p = None
        /\ (forall (r : nat) q, objetos w !! r = Some q ->
              objetos (com_pedido cliente w) !! r = Some q)
        /\ eventos (com_pedido cliente w) = eventos w).
Proof.
  split; intros H.
  - apply Pedido_init_erro. now rewrite criar_guarda.
  - eexists. split; [apply Pedido_init_ok; now rewrite criar_guarda|].
    split; [simpl; rewrite lookup_app_r by lia; rewrite Nat.sub_diag; reflexivity|].
    cbn [Pedido.id Pedido.cliente Pedido.itens Pedido._status Pedido._observers
         Pedido._pagamento].
    split; [reflexivity|]. split; [reflexivity|].
    split; [apply strip_aparada|]. split; [now apply strip_nao_vazia|].
    repeat (split; [reflexivity|]). split; [|reflexivity].
    intros r q Hr. simpl. now apply lookup_app_l_Some.
Qed.

Lemma Pedido_init_spec_witness :
  Pedido_init "   " mundo_ana
  = (Levanta (ValueError "Nome do cliente não pode ser vazio"), mundo_ana)
  /\ Pedido_init (nbsp ++ emsp) mundo_ana
     = (Levanta (ValueError "Nome do cliente não pode ser vazio"), mundo_ana)
  /\ fst (Pedido_init ("  Bia" ++ nbsp) mundo_ana) = Retorna 1%nat
  /\ identificadores (snd (Pedido_init ("  Bia" ++ nbsp) mundo_ana)) = [1; 2]%Z
  /\ exists p, objetos (snd (Pedido_init ("  Bia" ++ nbsp) mundo_ana)) !! 1%nat = Some p
               /\ Pedido.cliente p = "Bia".
Proof.
  destruct (Pedido_init_spec "   " mundo_ana) as [H1 _].
  destruct (Pedido_init_spec (nbsp ++ emsp) mundo_ana) as [H1' _].
  destruct (Pedido_init_spec ("  Bia" ++ nbsp) mundo_ana) as [_ H2].
  destruct (H2 eq_refl) as (p & E & Hl & _ & Hc & _).
  split; [exact (H1 eq_refl)|]. split; [exact (H1' eq_refl)|]. rewrite E.
  split; [reflexivity|]. split; [reflexivity|].
  exists p. split; [exact Hl | exact Hc].
Defined.

(** X2. [NotificadorCliente(nome)] and [PagamentoPix(chave)] raise a
    [ValueError] for a text that is empty or white space only, and keep any
    other text without the white space around it: what they keep is not
    empty and has no white space at either end. *)
Theorem construtores_aparam (s : string) :
  (so_espacos s = true ->
   NotificadorCliente_init s = Levanta (ValueError "Nome do cliente não pode ser vazio")
   /\ PagamentoPix_init s = Levanta (ValueError "Chave PIX não pode ser vazia"))
  /\ (so_espacos s = false ->
      NotificadorCliente_init s = Retorna (NotificadorCliente (Str.strip s))
      /\ PagamentoPix_init s = Retorna (PagamentoPix (Str.strip s))
      /\ aparada (Str.strip s) /\ Str.strip s <> "").
Proof.
  unfold NotificadorCliente_init, PagamentoPix_init. rewrite criar_guarda.
  split; intros H; rewrite H; [now split|].
  split; [reflexivity|]. split; [reflexivity|].
  split; [apply strip_aparada | now apply strip_nao_vazia].
Qed.

Lemma construtores_aparam_witness :
  PagamentoPix_init "  " = Levanta (ValueError "Chave PIX não pode ser vazia")
  /\ NotificadorCliente_init "" = Levanta (ValueError "Nome do cliente não pode ser vazio")
  /\ NotificadorCliente_init nbsp = Levanta (ValueError "Nome do cliente não pode ser vazio")
  /\ PagamentoPix_init emsp = Levanta (ValueError "Chave PIX não pode ser vazia")
  /\ PagamentoPix_init (" cafeteria@pix.com" ++ emsp) = Retorna (PagamentoPix "cafeteria@pix.com")
  /\ NotificadorCliente_init "Maria Silva " = Retorna (NotificadorCliente "Maria Silva").
Proof.
  destruct (construtores_aparam "  ") as [H1 _].
  destruct (construtores_aparam "") as [H2 _].
  destruct (construtores_aparam nbsp) as [H2' _].
  destruct (construtores_aparam emsp) as [H2'' _].
  destruct (construtores_aparam (" cafeteria@pix.com" ++ emsp)) as [_ H3].
  destruct (construtores_aparam "Maria Silva ") as [_ H4].
  split; [exact (proj2 (H1 eq_refl))|]. split; [exact (proj1 (H2 eq_refl))|].
  split; [exact (proj1 (H2' eq_refl))|]. split; [exact (proj2 (H2'' eq_refl))|].
  split; [exact (proj1 (proj2 (H3 eq_refl)))|]. exact (proj1 (H4 eq_refl)).
Defined.

(** X3. Two notifiers built from names that differ only in the white
    space around them are equal observers, so attaching both to an order
    is attaching the first. *)
Theorem notificadores_iguais (a b : string) (w : Mundo) (self : nat) (p : Pedido.t) :
  objetos w !! self = Some p ->
  so_espacos a = false ->
  Str.strip a = Str.strip b ->
  exists oa ob,
    NotificadorCliente_init a = Retorna oa
    /\ NotificadorCliente_init b = Retorna ob
    /\ ObservadorPedido_eq oa (OObservador ob) = true
    /\ (adicionar_observer self (OObservador oa) ;;
        adicionar_observer self (OObservador ob)) w
       = adicionar_observer self (OObservador oa) w.
Proof.
  intros H Ha Hab.
  assert (Hb : so_espacos b = false).
  { rewrite <- strip_vazia, <- Hab, strip_vazia. exact Ha. }
  exists (NotificadorCliente (Str.strip a)), (NotificadorCliente (Str.strip b)).
  unfold NotificadorCliente_init. rewrite !criar_guarda, Ha, Hb.
  split; [reflexivity|]. split; [reflexivity|]. rewrite <- Hab.
  split; [now apply ObservadorPedido_eq_iff|].
  unfold bind. rewrite (adicionar_observer_ok _ _ _ H).
  destruct (contem _ (Pedido._observers p)) eqn:Ec.
  - now rewrite (adicionar_observer_ok _ _ _ H), Ec.
  - erewrite adicionar_observer_ok by (now apply lookup_com_objeto with (p := p)).
    cbn [com_observers Pedido._observers].
    replace (contem _ _) with true; [reflexivity|].
    symmetry. apply contem_iff, in_or_app. right. now left.
Qed.

Lemma notificadores_iguais_witness :
  exists oa ob,
    NotificadorCliente_init (nbsp ++ "Bia") = Retorna oa
    /\ NotificadorCliente_init "Bia  " = Retorna ob
    /\ ObservadorPedido_eq oa (OObservador ob) = true
    /\ (adicionar_observer 0 (OObservador oa) ;;
        adicionar_observer 0 (OObservador ob)) mundo_ana
       = adicionar_observer 0 (OObservador oa) mundo_ana.
Proof.
  exact (notificadores_iguais (nbsp ++ "Bia") "Bia  " mundo_ana 0 pedido_ana
           eq_refl eq_refl eq_refl).
Defined.

(** ** The card number in the log *)

Lemma pagar_cartao_ok numero valor w :
  (0 <? valor)%float = true ->
  pagar (PagamentoCartao numero) valor w
  = (Retorna true,
     com_eventos [Print [Texto "Processando pagamento de R$"; Reais valor;
                         Texto " no cartão **"; Texto (Str.ultimos 4 numero)]] w).
Proof. intros H. unfold pagar. now rewrite (ltb_leb_false _ _ H). Qed.

(** X4. [PagamentoCartao(numero)] raises a [ValueError] for a number of
    fewer than four characters and keeps any other number.  When it pays,
    the one line it prints shows of the number its last four characters
    and no more: the text shown has four characters and the number is some
    text followed by it.  Characters are counted as [len] counts them, a
    character outside ASCII as one. *)
Theorem cartao_mascara (numero : string) (valor : float) (w : Mundo) :
  ((Str.len numero < 4)%Z ->
   PagamentoCartao_init numero = Levanta (ValueError "Número do cartão inválido"))
  /\ ((4 <= Str.len numero)%Z ->
      PagamentoCartao_init numero = Retorna (PagamentoCartao numero)
      /\ Str.len (Str.ultimos 4 numero) = 4%Z
      /\ (exists inicio,
            numero = inicio ++ Str.ultimos 4 numero
            /\ Str.len inicio = (Str.len numero - 4)%Z)
      /\ ((0 <? valor)%float = true ->
          impressos (drop (length (eventos w))
                          (eventos (snd (pagar (PagamentoCartao numero) valor w))))
          = [[Texto "Processando pagamento de R$"; Reais valor;
              Texto " no cartão **"; Texto (Str.ultimos 4 numero)]])).
Proof.
  unfold PagamentoCartao_init. split; intros H.
  - apply Z.ltb_lt in H. rewrite H. now rewrite orb_true_r.
  - assert (Hu : Str.len (Str.ultimos 4 numero) = 4%Z).
    { unfold Str.len in *. rewrite conta_ultimos by lia. reflexivity. }
    split; [|split; [exact Hu|split]].
    + destruct numero as [|c s]; [exfalso; now apply H|]. cbn [Str.vazia orb].
      apply Z.ltb_ge in H. now rewrite H.
    + destruct (ultimos_sufixo 4 numero) as [inicio Hi]. exists inicio.
      split; [exact Hi|].
      pose proof (len_app inicio (Str.ultimos 4 numero)) as Hl.
      rewrite <- Hi in Hl. lia.
    + intros Hv. rewrite (pagar_cartao_ok numero valor w Hv).
      cbn [snd com_eventos eventos]. rewrite drop_app_length. reflexivity.
Qed.

Lemma cartao_mascara_witness :
  PagamentoCartao_init "123" = Levanta (ValueError "Número do cartão inválido")
  /\ PagamentoCartao_init "ção" = Levanta (ValueError "Número do cartão inválido")
  /\ PagamentoCartao_init "4111111111111234" = Retorna (PagamentoCartao "4111111111111234")
  /\ Str.ultimos 4 "4111111111111234" = "1234"
  /\ Str.ultimos 4 "1234é" = "234é"
  /\ impressos (eventos (snd (pagar (PagamentoCartao "4111111111111234") 26.5 mundo_inicial)))
     = [[Texto "Processando pagamento de R$"; Reais 26.5;
         Texto " no cartão **"; Texto "1234"]].
Proof.
  destruct (cartao_mascara "123" 1 mundo_inicial) as [H1 _].
  destruct (cartao_mascara "ção" 1 mundo_inicial) as [H1' _].
  destruct (cartao_mascara "4111111111111234" 26.5 mundo_inicial) as [_ H2].
  destruct (H2 ltac:(unfold Str.len; simpl; lia)) as (H3 & _ & _ & H4).
  split; [apply H1; unfold Str.len; simpl; lia|].
  split; [apply H1'; unfold Str.len; simpl; lia|].
  split; [exact H3|]. split; [reflexivity|]. split; [reflexivity|].
  exact (H4 eq_refl).
Defined.

(** ** Steps of a run, in detail *)

Lemma chamados_app l1 l2 : chamados (l1 ++ l2) = (chamados l1 ++ chamados l2)%list.
Proof.
  induction l1 as [|[x|o r] l1 IH]; simpl; [reflexivity | exact IH | now rewrite IH].
Qed.

Lemma pagar_imprime e v w :
  exists l, snd (pagar e v w) = com_eventos l w /\ chamados l = [].
Proof.
  destruct e as [n|c|t]; unfold pagar; destruct (v <=? 0)%float;
    try (exists []; split; [simpl; now rewrite com_eventos_nil | reflexivity]);
    unfold _log_pagamento, print, registrar, bind, ret; cbn [snd].
  - eexists. split; reflexivity.
  - rewrite com_eventos_app. eexists. split; reflexivity.
  - destruct (v <=? t)%float; [|eexists; split; reflexivity].
    destruct (0 <? t - v)%float; cbn [snd]; rewrite ?com_eventos_app;
      eexists; split; reflexivity.
Qed.

Lemma criar_imprime tipo w :
  exists l, snd (FabricaBebidas.criar tipo w) = com_eventos l w /\ chamados l = [].
Proof.
  unfold FabricaBebidas.criar.
  destruct (_ || _); [exists []; split; [simpl; now rewrite com_eventos_nil | reflexivity]|].
  destruct (FabricaBebidas.get _ _);
    [|exists []; split; [simpl; now rewrite com_eventos_nil | reflexivity]].
  unfold preparar_pedido, _log_preparacao, print, registrar, bind, ret. cbn [snd].
  eexists. split; reflexivity.
Qed.

Lemma passo_refl w : passo w w.
Proof. rewrite <- (com_eventos_nil w) at 2. now constructor. Qed.

Lemma executar_passo op w : passo w (executar op w).
Proof.
  destruct op as [c|r v|r v|r v|r v|r v|r|r|t|e v].
  - unfold executar. destruct (so_espacos c) eqn:E.
    + rewrite Pedido_init_erro by (now rewrite criar_guarda). apply passo_refl.
    + rewrite Pedido_init_ok by (now rewrite criar_guarda). now apply passo_pedido.
  - destruct (objetos w !! r) as [p|] eqn:E;
      [|rewrite (executar_sem_objeto (DefinirStatus r v) w E); apply passo_refl].
    unfold executar. destruct (e_status v) eqn:Ev.
    + destruct v; try discriminate.
      rewrite (set_status_ok _ _ _ _ E). simpl. now apply passo_status.
    + rewrite set_status_erro by exact Ev. apply passo_refl.
  - destruct (objetos w !! r) as [p|] eqn:E;
      [|rewrite (executar_sem_objeto (AdicionarObserver r v) w E); apply passo_refl].
    unfold executar. destruct v; try apply passo_refl.
    rewrite (adicionar_observer_ok _ _ _ E). simpl.
    destruct (contem _ _); [apply passo_refl | now apply passo_observers].
  - destruct (objetos w !! r) as [p|] eqn:E;
      [|rewrite (executar_sem_objeto (RemoverObserver r v) w E); apply passo_refl].
    unfold executar. rewrite (remover_observer_ok _ _ _ E). simpl.
    destruct (contem _ _); [now apply passo_observers | apply passo_refl].
  - destruct (objetos w !! r) as [p|] eqn:E;
      [|rewrite (executar_sem_objeto (AdicionarItem r v) w E); apply passo_refl].
    unfold executar. destruct v; try apply passo_refl.
    rewrite (adicionar_item_ok _ _ _ E). simpl. now apply passo_item.
  - destruct (objetos w !! r) as [p|] eqn:E;
      [|rewrite (executar_sem_objeto (DefinirPagamento r v) w E); apply passo_refl].
    unfold executar. destruct v; try apply passo_refl.
    rewrite (definir_pagamento_ok _ _ _ E). simpl. now apply passo_pagamento.
  - destruct (objetos w !! r) as [p|] eqn:E;
      [|rewrite (executar_sem_objeto (ProcessarPagamento r) w E); apply passo_refl].
    unfold executar. rewrite (processar_pagamento_ok _ _ _ E).
    destruct (Pedido._pagamento p) as [e|]; [|apply passo_refl].
    destruct (Pedido.itens p); [apply passo_refl|].
    destruct (pagar_imprime e (sum (map preco (b :: l))) w) as (l' & -> & Hl).
    now constructor.
  - destruct (objetos w !! r) as [p|] eqn:E;
      [|rewrite (executar_sem_objeto (Total r) w E); apply passo_refl].
    unfold executar. rewrite (total_ok _ _ _ E). apply passo_refl.
  - unfold executar. destruct (criar_imprime t w) as (l' & -> & Hl). now constructor.
  - unfold executar. destruct (pagar_imprime e v w) as (l' & -> & Hl). now constructor.
Qed.

Lemma conserva_refl w : conserva w w.
Proof.
  split; [lia|]. split; [exists []; now rewrite app_nil_r|].
  intros r p H. exists p. repeat split; auto. exists []. now rewrite app_nil_r.
Qed.

Lemma conserva_trans w1 w2 w3 : conserva w1 w2 -> conserva w2 w3 -> conserva w1 w3.
Proof.
  intros (Hc1 & [l1 He1] & Ho1) (Hc2 & [l2 He2] & Ho2).
  split; [lia|]. split; [exists (l1 ++ l2)%list; now rewrite He2, He1, app_assoc|].
  intros r p H. destruct (Ho1 r p H) as (p' & H' & Hi & Hn & [k1 Hk1] & Hp).
  destruct (Ho2 r p' H') as (p'' & H'' & Hi' & Hn' & [k2 Hk2] & Hp').
  exists p''. split; [exact H''|]. split; [congruence|]. split; [congruence|].
  split; [exists (k1 ++ k2)%list; now rewrite Hk2, Hk1, app_assoc | auto].
Qed.

Lemma conserva_escrita w (r : nat) p q :
  objetos w !! r = Some p ->
  Pedido.id q = Pedido.id p -> Pedido.cliente q = Pedido.cliente p ->
  (exists l, Pedido.itens q = (Pedido.itens p ++ l)%list) ->
  (Pedido._pagamento p <> None -> Pedido._pagamento q <> None) ->
  forall l, conserva w (com_eventos l (com_objeto r q w)).
Proof.
  intros H Hi Hn Hk Hp l. split; [simpl; lia|]. split; [now exists l|].
  intros r' p' H'. simpl. destruct (decide (r = r')) as [<-|Hne].
  - rewrite list_lookup_insert_eq by now apply lookup_lt_Some in H.
    assert (p' = p) by congruence. subst p'. exists q. auto.
  - rewrite list_lookup_insert_ne by exact Hne. exists p'.
    repeat split; auto. exists []. now rewrite app_nil_r.
Qed.

Lemma passo_conserva w w' : passo w w' -> conserva w w'.
Proof.
  intros [l Hl|r p s H|r p l H|r p b H|r p e H|c Hc].
  - split; [simpl; lia|]. split; [now exists l|].
    intros r p H. exists p. repeat split; auto. exists []. now rewrite app_nil_r.
  - apply (conserva_escrita w r p); auto. exists []. simpl. now rewrite app_nil_r.
  - rewrite <- (com_eventos_nil (com_objeto _ _ _)).
    apply (conserva_escrita w r p); auto. exists []. simpl. now rewrite app_nil_r.
  - rewrite <- (com_eventos_nil (com_objeto _ _ _)).
    apply (conserva_escrita w r p); auto. now exists [b].
  - rewrite <- (com_eventos_nil (com_objeto _ _ _)).
    apply (conserva_escrita w r p); auto; try (intros _; discriminate).
    exists []. simpl. now rewrite app_nil_r.
  - split; [simpl; lia|]. split; [exists []; simpl; now rewrite app_nil_r|].
    intros r p H. exists p. split; [simpl; now apply lookup_app_l_Some|].
    repeat split; auto. exists []. now rewrite app_nil_r.
Qed.

(** X5. What a run never undoes.  From any world, after any sequence of
    operations: the counter of identifiers has not gone down, the trace
    has only grown, and every order that existed still exists, under the
    same reference, with the same identifier and the same client, with the
    items it had, in place, followed by those added since (no item is ever
    removed), and with a payment method if it had one. *)
Theorem correr_conserva (ops : list operacao) (w : Mundo) : conserva w (correr ops w).
Proof.
  revert w. induction ops as [|op ops IH]; intros w; simpl; [apply conserva_refl|].
  apply (conserva_trans w (executar op w)); [|apply IH].
  apply passo_conserva, executar_passo.
Qed.

Example correr_conserva_tres :
  exists p', objetos (correr [AdicionarItem 2 (OBebida Espresso);
                              DefinirPagamento 2 (OStr "pix");
                              NovoPedido "Davi"] mundo_tres) !! 2%nat = Some p'
             /\ Pedido.itens p' = [Leite Latte; Espresso]
             /\ Pedido._pagamento p' = Some (PagamentoDinheiro 10).
Proof. eexists. repeat split. Qed.

Lemma passo_clientes w w' : passo w w' -> clientes_aparados w -> clientes_aparados w'.
Proof.
  intros Hp Hw r' p' H'.
  assert (Hq : forall (r : nat) p q, objetos w !! r = Some p ->
                 Pedido.cliente q = Pedido.cliente p ->
                 objetos (com_objeto r q w) !! r' = Some p' ->
                 aparada (Pedido.cliente p') /\ Pedido.cliente p' <> "").
  { intros r p q H Hn Hl. simpl in Hl. destruct (decide (r = r')) as [<-|Hne].
    - rewrite list_lookup_insert_eq in Hl by now apply lookup_lt_Some in H.
      injection Hl as <-. rewrite Hn. now apply (Hw r).
    - rewrite list_lookup_insert_ne in Hl by exact Hne. now apply (Hw r'). }
  destruct Hp as [l Hl|r p s H|r p l H|r p b H|r p e H|c Hc].
  - now apply (Hw r').
  - now apply (Hq r p (com_status s p) H).
  - now apply (Hq r p (com_observers l p) H).
  - now apply (Hq r p (com_itens (Pedido.itens p ++ [b]) p) H).
  - now apply (Hq r p (com_pagamento (Some e) p) H).
  - simpl in H'. apply lookup_app_Some in H' as [Hl|[_ Hl]]; [now apply (Hw r')|].
    destruct (r' - length (objetos w))%nat; [|discriminate].
    injection Hl as <-. simpl. split; [apply strip_aparada | now apply strip_nao_vazia].
Qed.

(** X6. In every world a run reaches from the start of the process, the
    client name of every order is not empty and has no white space at
    either end. *)
Theorem clientes_sempre_aparados (ops : list operacao) :
  clientes_aparados (correr ops mundo_inicial).
Proof.
  assert (H : forall w, clientes_aparados w -> clientes_aparados (correr ops w)).
  { induction ops as [|op ops IH]; intros w Hw; simpl; [exact Hw|].
    apply IH. apply (passo_clientes w); [apply executar_passo | exact Hw]. }
  apply H. intros r p Hr. discriminate.
Qed.

Lemma clientes_sempre_aparados_witness :
  map Pedido.cliente
      (objetos (correr [NovoPedido nbsp; NovoPedido (nbsp ++ " Ana" ++ emsp);
                        NovoPedido "Bia "] mundo_inicial))
  = ["Ana"; "Bia"]
  /\ aparada "Ana" /\ "Ana" <> "".
Proof.
  split; [reflexivity|].
  exact (clientes_sempre_aparados
           [NovoPedido nbsp; NovoPedido (nbsp ++ " Ana" ++ emsp); NovoPedido "Bia "]
           0%nat _ eq_refl).
Defined.

(** ** What one operation touches *)


Lemma com_objeto_id w (r : nat) p : objetos w !! r = Some p -> com_objeto r p w = w.
Proof.
  intros H. destruct w as [c o e]. unfold com_objeto. simpl in *.
  now rewrite list_insert_id.
Qed.

Lemma com_objeto_com_objeto (r : nat) q q' w :
  com_objeto r q (com_objeto r q' w) = com_objeto r q w.
Proof. unfold com_objeto. simpl. now rewrite list_insert_insert_eq. Qed.

(** The world an operation leaves: the same with more lines printed; the
    same with the order the operation is about replaced, and with events
    added only by a write to the status, the one way a status changes; or
    the same with one more order. *)
Lemma executar_forma op w :
  (exists l, chamados l = [] /\ executar op w = com_eventos l w)
  \/ (exists (r : nat) p q l,
        alvo op = Some r /\ objetos w !! r = Some p
        /\ executar op w = com_eventos l (com_objeto r q w)
        /\ (e_definir_status op = false ->
            l = [] /\ Pedido._status q = Pedido._status p))
  \/ (exists c, executar op w = com_pedido c w).
Proof.
  assert (Hr : exists l, chamados l = [] /\ w = com_eventos l w)
    by (exists []; split; [reflexivity | now rewrite com_eventos_nil]).
  destruct op as [c|r v|r v|r v|r v|r v|r|r|t|e v].
  - unfold executar. destruct (so_espacos c) eqn:E.
    + rewrite Pedido_init_erro by (now rewrite criar_guarda). now left.
    + rewrite Pedido_init_ok by (now rewrite criar_guarda). right. right. now exists c.
  - destruct (objetos w !! r) as [p|] eqn:E;
      [|rewrite (executar_sem_objeto (DefinirStatus r v) w E); now left].
    unfold executar. destruct (e_status v) eqn:Ev.
    + destruct v; try discriminate. rewrite (set_status_ok _ _ _ _ E).
      right. left. exists r, p, (com_status s p). eexists.
      repeat split; [exact E | discriminate | discriminate].
    + rewrite set_status_erro by exact Ev. now left.
  - destruct (objetos w !! r) as [p|] eqn:E;
      [|rewrite (executar_sem_objeto (AdicionarObserver r v) w E); now left].
    unfold executar. destruct v; try (now left).
    rewrite (adicionar_observer_ok _ _ _ E). simpl.
    destruct (contem _ _); [now left|]. right. left.
    exists r, p, (com_observers (Pedido._observers p ++ [o]) p), [].
    rewrite com_eventos_nil. repeat split. exact E.
  - destruct (objetos w !! r) as [p|] eqn:E;
      [|rewrite (executar_sem_objeto (RemoverObserver r v) w E); now left].
    unfold executar. rewrite (remover_observer_ok _ _ _ E). simpl.
    destruct (contem _ _); [|now left]. right. left.
    exists r, p, (com_observers (remove v (Pedido._observers p)) p), [].
    rewrite com_eventos_nil. repeat split. exact E.
  - destruct (objetos w !! r) as [p|] eqn:E;
      [|rewrite (executar_sem_objeto (AdicionarItem r v) w E); now left].
    unfold executar. destruct v; try (now left).
    rewrite (adicionar_item_ok _ _ _ E). right. left.
    exists r, p, (com_itens (Pedido.itens p ++ [b]) p), [].
    rewrite com_eventos_nil. repeat split. exact E.
  - destruct (objetos w !! r) as [p|] eqn:E;
      [|rewrite (executar_sem_objeto (DefinirPagamento r v) w E); now left].
    unfold executar. destruct v; try (now left).
    rewrite (definir_pagamento_ok _ _ _ E). right. left.
    exists r, p, (com_pagamento (Some p0) p), [].
    rewrite com_eventos_nil. repeat split. exact E.
  - destruct (objetos w !! r) as [p|] eqn:E;
      [|rewrite (executar_sem_objeto (ProcessarPagamento r) w E); now left].
    unfold executar. rewrite (processar_pagamento_ok _ _ _ E).
    destruct (Pedido._pagamento p) as [e|]; [|now left].
    destruct (Pedido.itens p); [now left|].
    destruct (pagar_imprime e (sum (map preco (b :: l))) w) as (l' & -> & Hl).
    left. now exists l'.
  - destruct (objetos w !! r) as [p|] eqn:E;
      [|rewrite (executar_sem_objeto (Total r) w E); now left].
    unfold executar. rewrite (total_ok _ _ _ E). now left.
  - unfold executar. destruct (criar_imprime t w) as (l' & -> & Hl). left. now exists l'.
  - unfold executar. destruct (pagar_imprime e v w) as (l' & -> & Hl). left. now exists l'.
Qed.

(** X7. An operation about one order leaves every other order exactly as
    it was; an operation about no order (a construction, the factory, a
    payment outside an order) leaves every order as it was. *)
Theorem executar_alheio (op : operacao) (w : Mundo) (r : nat) (p : Pedido.t) :
  objetos w !! r = Some p ->
  alvo op <> Some r ->
  objetos (executar op w) !! r = Some p.
Proof.
  intros H Ha.
  destruct (executar_forma op w) as [(l & _ & ->)|[(r0 & p0 & q & l & Hr & H0 & -> & _)|[c ->]]].
  - exact H.
  - simpl. rewrite list_lookup_insert_ne; [exact H | congruence].
  - simpl. now apply lookup_app_l_Some.
Qed.

Lemma executar_alheio_witness :
  objetos (executar (DefinirStatus 2 (OStatus PRONTO)) mundo_tres) !! 1%nat = Some pedido_bia
  /\ objetos (executar (NovoPedido "Davi") mundo_tres) !! 2%nat = Some pedido_caio.
Proof.
  split.
  - apply (executar_alheio (DefinirStatus 2 (OStatus PRONTO)) mundo_tres 1 pedido_bia eq_refl).
    discriminate.
  - apply (executar_alheio (NovoPedido "Davi") mundo_tres 2 pedido_caio eq_refl).
    discriminate.
Defined.



(** ** Items, payment method and observers of one order *)

Lemma adicionar_itens_ok l : forall w (self : nat) p,
  objetos w !! self = Some p ->
  para_cada l (fun b => adicionar_item self (OBebida b)) w
  = (Retorna tt, com_objeto self (com_itens (Pedido.itens p ++ l) p) w).
Proof.
  induction l as [|b l IH]; intros w self p H; cbn [para_cada].
  - unfold ret. rewrite app_nil_r.
    replace (com_itens (Pedido.itens p) p) with p by now destruct p.
    now rewrite com_objeto_id.
  - unfold bind. rewrite (adicionar_item_ok _ _ _ H).
    rewrite (IH _ self (com_itens (Pedido.itens p ++ [b]) p))
      by (now apply lookup_com_objeto with (p := p)).
    rewrite com_objeto_com_objeto. cbn [com_itens Pedido.itens].
    now rewrite <- app_assoc.
Qed.

(** X9. [adicionar_item] raises a [TypeError] for what is no drink and
    changes nothing then.  Drinks added one after the other end up after
    the items the order had, in the order they were added and with their
    repetitions; the total is then the total before, plus the price of
    each drink added, in that order. *)
Theorem adicionar_itens_em_ordem (w : Mundo) (self : nat) (p : Pedido.t)
    (l : list Bebida) :
  objetos w !! self = Some p ->
  para_cada l (fun b => adicionar_item self (OBebida b)) w
  = (Retorna tt, com_objeto self (com_itens (Pedido.itens p ++ l) p) w)
  /\ (para_cada l (fun b => adicionar_item self (OBebida b)) ;; total self) w
     = (Retorna (fold_left PrimFloat.add (map preco l)
                   (sum (map preco (Pedido.itens p)))),
        com_objeto self (com_itens (Pedido.itens p ++ l) p) w)
  /\ (forall v, (forall b, v <> OBebida b) ->
        adicionar_item self v w
        = (Levanta (TypeError "Item deve ser uma instância de Bebida"), w)).
Proof.
  intros H. split; [now apply adicionar_itens_ok|]. split.
  - unfold bind. rewrite (adicionar_itens_ok l _ _ _ H).
    erewrite total_ok by (now apply lookup_com_objeto with (p := p)).
    cbn [com_itens Pedido.itens]. unfold sum. now rewrite map_app, fold_left_app.
  - intros v Hv. destruct v; try reflexivity. now destruct (Hv b).
Qed.

Lemma adicionar_itens_em_ordem_witness :
  fst ((para_cada [Espresso; Espresso; Chantilly Cappuccino]
          (fun b => adicionar_item 2 (OBebida b)) ;; total 2) mundo_tres)
  = Retorna 29.5%float
  /\ adicionar_item 2 (OStr "Espresso") mundo_tres
     = (Levanta (TypeError "Item deve ser uma instância de Bebida"), mundo_tres).
Proof.
  destruct (adicionar_itens_em_ordem mundo_tres 2 pedido_caio
              [Espresso; Espresso; Chantilly Cappuccino] eq_refl) as (_ & H2 & H3).
  split; [now rewrite H2|]. apply H3. discriminate.
Defined.

(** X10. [definir_pagamento] raises a [TypeError] for what is no payment
    method and changes nothing then.  Setting a method and then another is
    setting the other: the last one set is the one that pays. *)
Theorem definir_pagamento_substitui (w : Mundo) (self : nat) (p : Pedido.t)
    (e1 e2 : PagamentoStrategy) :
  objetos w !! self = Some p ->
  (definir_pagamento self (OPagamento e1) ;; definir_pagamento self (OPagamento e2)) w
  = definir_pagamento self (OPagamento e2) w
  /\ (Pedido.itens p <> [] ->
      (definir_pagamento self (OPagamento e1) ;;
       definir_pagamento self (OPagamento e2) ;;
       processar_pagamento self) w
      = pagar e2 (sum (map preco (Pedido.itens p)))
          (com_objeto self (com_pagamento (Some e2) p) w))
  /\ (forall v, (forall e, v <> OPagamento e) ->
        definir_pagamento self v w
        = (Levanta (TypeError "Estratégia deve implementar PagamentoStrategy"), w)).
Proof.
  intros H.
  assert (H1 : objetos (com_objeto self (com_pagamento (Some e1) p) w) !! self
               = Some (com_pagamento (Some e1) p))
    by now apply lookup_com_objeto with (p := p).
  assert (E : (definir_pagamento self (OPagamento e1) ;;
               definir_pagamento self (OPagamento e2)) w
              = (Retorna tt, com_objeto self (com_pagamento (Some e2) p) w)).
  { unfold bind. rewrite (definir_pagamento_ok _ _ _ H), (definir_pagamento_ok _ _ _ H1).
    now rewrite com_objeto_com_objeto. }
  split; [now rewrite E, (definir_pagamento_ok _ _ _ H)|]. split.
  - intros Hi.
    change ((definir_pagamento self (OPagamento e1) ;;
             definir_pagamento self (OPagamento e2) ;;
             processar_pagamento self) w)
      with (bind (definir_pagamento self (OPagamento e1))
              (fun _ => bind (definir_pagamento self (OPagamento e2))
                          (fun _ => processar_pagamento self)) w).
    rewrite <- bind_assoc. unfold bind at 1. rewrite E.
    erewrite processar_pagamento_ok by (now apply lookup_com_objeto with (p := p)).
    cbn [com_pagamento Pedido._pagamento Pedido.itens].
    destruct (Pedido.itens p); [congruence | reflexivity].
  - intros v Hv. destruct v; try reflexivity. now destruct (Hv p0).
Qed.

Lemma definir_pagamento_substitui_witness :
  fst ((definir_pagamento 2 (OPagamento (PagamentoDinheiro 5)) ;;
        definir_pagamento 2 (OPagamento (PagamentoPix "caio@pix.com")) ;;
        processar_pagamento 2) mundo_tres) = Retorna true
  /\ fst ((definir_pagamento 2 (OPagamento (PagamentoPix "caio@pix.com")) ;;
           definir_pagamento 2 (OPagamento (PagamentoDinheiro 5)) ;;
           processar_pagamento 2) mundo_tres) = Retorna false
  /\ definir_pagamento 2 (OStr "pix") mundo_tres
     = (Levanta (TypeError "Estratégia deve implementar PagamentoStrategy"), mundo_tres).
Proof.
  destruct (definir_pagamento_substitui mundo_tres 2 pedido_caio (PagamentoDinheiro 5)
              (PagamentoPix "caio@pix.com") eq_refl) as (_ & H1 & H3).
  destruct (definir_pagamento_substitui mundo_tres 2 pedido_caio
              (PagamentoPix "caio@pix.com") (PagamentoDinheiro 5) eq_refl) as (_ & H2 & _).
  split; [now rewrite (H1 ltac:(discriminate))|].
  split; [now rewrite (H2 ltac:(discriminate))|]. apply H3. discriminate.
Defined.


Lemma remove_ultimo o l :
  contem (OObservador o) l = false -> remove (OObservador o) (l ++ [o]) = l.
Proof.
  unfold contem. induction l as [|e l IH]; cbn [existsb remove app].
  - intros _. now rewrite (proj2 (ObservadorPedido_eq_iff o o) eq_refl).
  - intros H. apply orb_false_iff in H as [H1 H2]. now rewrite H1, IH.
Qed.

(** X11. Attaching an observer that no attached observer equals, and then
    removing it, leaves the world exactly as it was.  What is no observer
    cannot be attached, [adicionar_observer] raises a [TypeError] for it,
    but removing it raises nothing and changes nothing. *)
Theorem observer_ida_e_volta (w : Mundo) (self : nat) (p : Pedido.t)
    (o : ObservadorPedido) :
  objetos w !! self = Some p ->
  contem (OObservador o) (Pedido._observers p) = false ->
  (adicionar_observer self (OObservador o) ;;
   remover_observer self (OObservador o)) w = (Retorna tt, w)
  /\ (forall v, (forall o', v <> OObservador o') ->
        adicionar_observer self v w
        = (Levanta (TypeError "Observer deve implementar ObservadorPedido"), w)
        /\ remover_observer self v w = (Retorna tt, w)).
Proof.
  intros H Hc. split.
  - unfold bind. rewrite (adicionar_observer_ok _ _ _ H), Hc.
    erewrite remover_observer_ok by (now apply lookup_com_objeto with (p := p)).
    cbn [com_observers Pedido._observers].
    replace (contem _ (Pedido._observers p ++ [o])) with true
      by (symmetry; apply contem_iff, in_or_app; right; now left).
    rewrite remove_ultimo by exact Hc. rewrite com_objeto_com_objeto.
    replace (com_observers (Pedido._observers p) _) with p by now destruct p.
    now rewrite com_objeto_id.
  - intros v Hv. split.
    + destruct v; try reflexivity. now destruct (Hv o0).
    + now rewrite (remover_observer_ok _ _ _ H), contem_outro.
Qed.

Lemma observer_ida_e_volta_witness :
  (adicionar_observer 0 (OObservador (NotificadorCliente "Bia")) ;;
   remover_observer 0 (OObservador (NotificadorCliente "Bia"))) mundo_ana
  = (Retorna tt, mundo_ana)
  /\ adicionar_observer 0 (OInt 42) mundo_ana
     = (Levanta (TypeError "Observer deve implementar ObservadorPedido"), mundo_ana)
  /\ remover_observer 0 (OInt 42) mundo_ana = (Retorna tt, mundo_ana).
Proof.
  destruct (observer_ida_e_volta mundo_ana 0 pedido_ana (NotificadorCliente "Bia")
              eq_refl eq_refl) as [H1 H2].
  split; [exact H1|]. apply H2. discriminate.
Defined.



(** ** Order of the halves *)

Section Ordem.

Local Open Scope Z_scope.

Lemma canonico_positivo k :
  0 < k < 2 ^ 53 ->
  canonico k = S754_finite false (Z.to_pos (mantissa_meios k)) (digitos k - 54).
Proof. intros H. unfold canonico. destruct (Z.eqb_spec k 0); [lia | reflexivity]. Qed.

(** Binary64 numbers that are halves compare as their numbers of halves. *)
Lemma canonico_compare k j :
  0 <= k < 2 ^ 53 -> 0 <= j < 2 ^ 53 ->
  SFcompare (canonico k) (canonico j) = Some (k ?= j).
Proof.
  intros Hk Hj.
  destruct (Z.eq_dec k 0) as [->|Hk0], (Z.eq_dec j 0) as [->|Hj0].
  - reflexivity.
  - rewrite (canonico_positivo j) by lia. change (canonico 0) with (S754_zero false).
    cbn [SFcompare]. f_equal. symmetry. apply Z.compare_lt_iff. lia.
  - rewrite (canonico_positivo k) by lia. change (canonico 0) with (S754_zero false).
    cbn [SFcompare]. f_equal. symmetry. apply Z.compare_gt_iff. lia.
  - rewrite (canonico_positivo k), (canonico_positivo j) by lia.
    pose proof (mantissa_pos k ltac:(lia) ltac:(lia)) as Pk.
    pose proof (mantissa_pos j ltac:(lia) ltac:(lia)) as Pj.
    pose proof (ds_bounds k ltac:(lia) ltac:(lia)) as Dk.
    cbn [SFcompare]. f_equal.
    destruct (Z.compare_spec (digitos k) (digitos j)) as [E|L|G].
    + replace (digitos k - 54 ?= digitos j - 54) with Eq
        by (symmetry; apply Z.compare_eq_iff; lia).
      change (Pos.compare_cont Eq ?a ?b) with (Pos.compare a b).
      rewrite <- Z2Pos.inj_compare by assumption.
      unfold mantissa_meios. rewrite <- E.
      assert (0 < 2 ^ (53 - digitos k)) by (apply Z.pow_pos_nonneg; lia).
      destruct (Z.compare_spec k j) as [->|L|G].
      * apply Z.compare_refl.
      * apply Z.compare_lt_iff. now apply Z.mul_lt_mono_pos_r.
      * apply Z.compare_gt_iff. now apply Z.mul_lt_mono_pos_r.
    + replace (digitos k - 54 ?= digitos j - 54) with Lt
        by (symmetry; apply Z.compare_lt_iff; lia).
      symmetry. apply Z.compare_lt_iff. apply Z.log2_lt_cancel. unfold digitos in L. lia.
    + replace (digitos k - 54 ?= digitos j - 54) with Gt
        by (symmetry; apply Z.compare_gt_iff; lia).
      symmetry. apply Z.compare_gt_iff. apply Z.log2_lt_cancel. unfold digitos in G. lia.
Qed.

Lemma leb_canonico (x y : float) k j :
  Prim2SF x = canonico k -> Prim2SF y = canonico j ->
  0 <= k < 2 ^ 53 -> 0 <= j < 2 ^ 53 ->
  (x <=? y)%float = (k <=? j) /\ (x <? y)%float = (k <? j).
Proof.
  intros Hx Hy Hk Hj. rewrite leb_spec, ltb_spec, Hx, Hy.
  unfold SFleb, SFltb. rewrite canonico_compare by assumption.
  unfold Z.leb, Z.ltb. now destruct (k ?= j).
Qed.


End Ordem.

(** ** Paying an order *)



(** X14. The test [valor <= 0] lets a NaN through.  Card and PIX accept a
    payment of NaN and return [True]; cash can be constructed with NaN
    handed over, and then refuses every positive amount; and cash refuses
    a payment of NaN whatever was handed over.  None of these raises. *)
Theorem nan_passa (numero chave : string) (entregue valor : float) (w : Mundo) :
  fst (pagar (PagamentoCartao numero) nan w) = Retorna true
  /\ fst (pagar (PagamentoPix chave) nan w) = Retorna true
  /\ PagamentoDinheiro_init nan = Retorna (PagamentoDinheiro nan)
  /\ ((0 <? valor)%float = true ->
      fst (pagar (PagamentoDinheiro nan) valor w) = Retorna false)
  /\ fst (pagar (PagamentoDinheiro entregue) nan w) = Retorna false.
Proof.
  assert (Hn : forall x, (x <=? nan)%float = false).
  { intros x. rewrite leb_spec. unfold SFleb.
    change (Prim2SF nan) with S754_nan. now destruct (Prim2SF x). }
  assert (Hm : forall x, (nan <=? x)%float = false).
  { intros x. rewrite leb_spec. unfold SFleb.
    change (Prim2SF nan) with S754_nan. reflexivity. }
  split; [reflexivity|]. split; [reflexivity|]. split; [reflexivity|]. split.
  - intros H. unfold pagar. now rewrite (ltb_leb_false _ _ H), Hn.
  - unfold pagar. now rewrite Hm, Hm.
Qed.

Lemma nan_passa_witness :
  (0 <? 7.5)%float = true
  /\ fst (pagar (PagamentoDinheiro nan) 7.5 mundo_inicial) = Retorna false.
Proof.
  split; [reflexivity|].
  apply (proj1 (proj2 (proj2 (proj2 (nan_passa "1234" "chave" 10 7.5 mundo_inicial))))).
  reflexivity.
Defined.


(** ** Prices of the drinks *)

(** X15. Every drink costs at least 5.00, and a drink wrapped in an
    ingredient costs strictly more than the drink itself: its price is the
    price of the drink plus the surcharge of the ingredient, and that
    addition does not round.  With the price of the drink the binary64
    number of [meios b] half reais and the surcharge that of
    [meios_acrescimo i] half reais, the price of the wrapped drink is the
    binary64 number of exactly [meios b + meios_acrescimo i] half reais
    (for prices under 2^53 half reais, which binary64 holds without
    rounding). *)
Theorem preco_cresce (b : Bebida) (i : Ingrediente) :
  (meios (envolver i b) < 2 ^ 53)%Z ->
  (5 <=? preco b)%float = true
  /\ (preco b <? preco (envolver i b))%float = true
  /\ preco (envolver i b) = (preco b + acrescimo i)%float
  /\ Prim2SF (preco b) = canonico (meios b)
  /\ Prim2SF (acrescimo i) = canonico (meios_acrescimo i)
  /\ Prim2SF (preco (envolver i b)) = canonico (meios b + meios_acrescimo i).
Proof.
  intros H.
  assert (Hi : meios (envolver i b) = (meios b + meios_acrescimo i)%Z)
    by (destruct i; reflexivity).
  assert (Ha : (3 <= meios_acrescimo i <= 5)%Z) by (destruct i; simpl; lia).
  pose proof (meios_min b) as Hm.
  pose proof (preco_exato b ltac:(lia)) as Hb.
  pose proof (preco_exato (envolver i b) H) as Hw.
  split; [|split; [|split; [|split; [exact Hb|split]]]].
  - destruct (leb_canonico 5%float (preco b) 10%Z _ eq_refl Hb) as [-> _]; lia.
  - destruct (leb_canonico (preco b) (preco (envolver i b)) _ _ Hb Hw) as [_ ->]; lia.
  - destruct i; reflexivity.
  - destruct i; reflexivity.
  - now rewrite <- Hi.
Qed.

Lemma preco_cresce_witness :
  (5 <=? preco (Leite Latte))%float = true
  /\ (preco (Leite Latte) <? preco (Chocolate (Leite Latte)))%float = true
  /\ preco (Chocolate (Leite Latte)) = (preco (Leite Latte) + 2)%float
  /\ preco (Chocolate (Leite Latte)) = 11%float
  /\ Prim2SF (preco (Chocolate (Leite Latte))) = canonico 22.
Proof.
  destruct (preco_cresce (Leite Latte) IChocolate eq_refl) as (H1 & H2 & H3 & _ & _ & H4).
  split; [exact H1|]. split; [exact H2|]. split; [exact H3|].
  split; [reflexivity | exact H4].
Defined.

(** ** The factory, from its keys and back *)

Lemma get_Some k d f :
  FabricaBebidas.get k d = Some f -> In (k, f) d.
Proof.
  induction d as [|[k' v] d IH]; simpl; [discriminate|].
  destruct (String.eqb_spec k' k) as [->|Hne].
  - intros H. injection H as ->. now left.
  - intros H. right. now apply IH.
Qed.

(** X16. Every key that [tipos_disponiveis] lists is accepted by [criar],
    which gives for it the drink whose description, in lower case, is the
    key.  Whenever [criar] returns at all, the key it was given, trimmed
    and in lower case, is one of those listed, the drink is the base drink
    of that name with no ingredient, and all it did was print the one line
    that announces the preparation. *)
Theorem fabrica_chaves (w : Mundo) :
  (forall k, In k FabricaBebidas.tipos_disponiveis ->
     exists b,
       FabricaBebidas.criar k w
       = (Retorna b, com_eventos [Print [Texto ("Preparando: " ++ descricao b)]] w)
       /\ Str.lower (descricao b) = k)
  /\ (forall tipo b w',
        FabricaBebidas.criar tipo w = (Retorna b, w') ->
        In (Str.lower (Str.strip tipo)) FabricaBebidas.tipos_disponiveis
        /\ Str.lower (descricao b) = Str.lower (Str.strip tipo)
        /\ (b = Espresso \/ b = Cappuccino \/ b = Latte)
        /\ w' = com_eventos [Print [Texto ("Preparando: " ++ descricao b)]] w).
Proof.
  split.
  - intros k Hk. simpl in Hk.
    destruct Hk as [<-|[<-|[<-|[]]]];
      [exists Espresso | exists Cappuccino | exists Latte]; split; reflexivity.
  - intros tipo b w'. unfold FabricaBebidas.criar.
    rewrite criar_guarda, strip_lower.
    destruct (so_espacos tipo); [discriminate|].
    destruct (FabricaBebidas.get _ _) as [f|] eqn:E; [|discriminate].
    apply get_Some in E. intros H.
    unfold preparar_pedido, _log_preparacao, bind, ret in H. rewrite print_ok in H.
    injection H as <- <-.
    simpl in E. destruct E as [E|[E|[E|[]]]]; injection E as <- <-;
      (split; [simpl; tauto|]); repeat split; tauto.
Qed.

Lemma fabrica_chaves_witness :
  In "latte" FabricaBebidas.tipos_disponiveis
  /\ (exists b,
        FabricaBebidas.criar "latte" mundo_inicial
        = (Retorna b,
           com_eventos [Print [Texto ("Preparando: " ++ descricao b)]] mundo_inicial)
        /\ Str.lower (descricao b) = "latte")
  /\ In (Str.lower (Str.strip (" LaTTe" ++ nbsp))) FabricaBebidas.tipos_disponiveis.
Proof.
  split; [simpl; tauto|]. split.
  - apply (proj1 (fabrica_chaves mundo_inicial)). simpl; tauto.
  - apply (proj2 (fabrica_chaves mundo_inicial) (" LaTTe" ++ nbsp) Latte
             (com_eventos [Print [Texto ("Preparando: " ++ descricao Latte)]]
                          mundo_inicial)).
    reflexivity.
Defined.

(** ** What each observer does *)

(** X17. An observer given a live order raises nothing and changes nothing
    but the trace, to which it adds at most one line.  It prints exactly
    when: the notifier of the client, for the statuses [PREPARANDO] and
    [PRONTO]; the panel, for every status; the metrics, for [ENTREGUE].
    The line it prints carries the identifier of the order. *)
Theorem observador_reage (o : ObservadorPedido) (w : Mundo) (pedido : nat)
    (p : Pedido.t) :
  objetos w !! pedido = Some p ->
  exists l,
    atualizar o pedido w = (Retorna tt, com_eventos (map Print l) w)
    /\ (reage o (Pedido._status p) = false -> l = [])
    /\ (reage o (Pedido._status p) = true ->
        exists x, l = [x] /\ inteiros x = [Pedido.id p]).
Proof.
  intros H. rewrite (atualizar_ok _ _ _ _ H).
  destruct o as [n| |], (Pedido._status p); cbn [reacao reage];
    first [ exists []; split; [reflexivity|]; split; [reflexivity | discriminate]
          | eexists [_]; split; [reflexivity|]; split; [discriminate|];
            intros _; eexists; split; reflexivity ].
Qed.

Lemma observador_reage_witness :
  atualizar (NotificadorCliente "Ana") 0 mundo_ana = (Retorna tt, mundo_ana)
  /\ atualizar SistemaMetricas 0 mundo_ana = (Retorna tt, mundo_ana)
  /\ exists l x, atualizar PainelPedidos 0 mundo_ana
                 = (Retorna tt, com_eventos (map Print l) mundo_ana)
                 /\ l = [x] /\ inteiros x = [1%Z].
Proof.
  destruct (observador_reage (NotificadorCliente "Ana") mundo_ana 0 pedido_ana eq_refl)
    as (l1 & E1 & H1 & _).
  destruct (observador_reage SistemaMetricas mundo_ana 0 pedido_ana eq_refl)
    as (l2 & E2 & H2 & _).
  destruct (observador_reage PainelPedidos mundo_ana 0 pedido_ana eq_refl)
    as (l3 & E3 & _ & H3).
  split; [rewrite E1, (H1 eq_refl); reflexivity|].
  split; [rewrite E2, (H2 eq_refl); reflexivity|].
  destruct (H3 eq_refl) as (x & Hx & Hi). exists l3, x. auto.
Defined.

(** ** The summary *)

Lemma valores_app (l1 l2 : linha) : valores (l1 ++ l2)%list = (valores l1 ++ valores l2)%list.
Proof.
  induction l1 as [|x l1 IH]; [reflexivity|].
  destruct x; simpl; first [exact IH | now rewrite IH].
Qed.

Lemma inteiros_app (l1 l2 : linha) : inteiros (l1 ++ l2)%list = (inteiros l1 ++ inteiros l2)%list.
Proof.
  induction l1 as [|x l1 IH]; [reflexivity|].
  destruct x; simpl; first [exact IH | now rewrite IH].
Qed.

Lemma valores_junta sep l : valores (junta sep l) = concat (map valores l).
Proof.
  induction l as [|x [|y l] IH]; [reflexivity | simpl; now rewrite app_nil_r |].
  change (junta sep (x :: y :: l)) with (x ++ Texto sep :: junta sep (y :: l))%list.
  rewrite valores_app. cbn [valores map concat]. now rewrite IH.
Qed.

Lemma inteiros_junta sep l : inteiros (junta sep l) = concat (map inteiros l).
Proof.
  induction l as [|x [|y l] IH]; [reflexivity | simpl; now rewrite app_nil_r |].
  change (junta sep (x :: y :: l)) with (x ++ Texto sep :: junta sep (y :: l))%list.
  rewrite inteiros_app. cbn [inteiros map concat]. now rewrite IH.
Qed.

Lemma valores_itens l : forall start,
  concat (map valores
            (map (fun '(i, item) =>
                    [Texto "  "; Inteiro i;
                     Texto (". " ++ descricao item ++ " - R$"); Reais (preco item)])
                 (enumerate l start)))
  = map preco l.
Proof. induction l as [|b l IH]; intros start; simpl; [reflexivity | now rewrite IH]. Qed.

Lemma inteiros_itens l : forall start,
  concat (map inteiros
            (map (fun '(i, item) =>
                    [Texto "  "; Inteiro i;
                     Texto (". " ++ descricao item ++ " - R$"); Reais (preco item)])
                 (enumerate l start)))
  = contagem start (length l).
Proof. induction l as [|b l IH]; intros start; simpl; [reflexivity | now rewrite IH]. Qed.

(** X18. The summary of a live order changes nothing and notifies no one.
    The amounts it shows are the prices of the items, in the order of the
    items, and then their total; the integers it shows are the identifier
    of the order and then the numbers 1, 2, ... of the items.  For an
    order with no item it shows a single amount, the total zero. *)
Theorem resumo_mostra (w : Mundo) (self : nat) (p : Pedido.t) :
  objetos w !! self = Some p ->
  exists texto,
    resumo self w = (Retorna texto, w)
    /\ valores texto
       = (map preco (Pedido.itens p) ++ [sum (map preco (Pedido.itens p))])%list
    /\ inteiros texto
       = Pedido.id p :: contagem 1 (length (Pedido.itens p)).
Proof.
  intros H. unfold resumo, status, bind, ret.
  rewrite !(ler_ok _ _ _ H), (total_ok _ _ _ H).
  eexists. split; [reflexivity|].
  rewrite valores_junta, inteiros_junta.
  destruct (Pedido.itens p) as [|b l] eqn:E.
  - split; reflexivity.
  - rewrite <- E. rewrite !map_app, !concat_app.
    rewrite valores_itens, inteiros_itens. cbn.
    now rewrite !app_nil_r.
Qed.

Lemma resumo_mostra_witness :
  exists texto,
    resumo 2 mundo_tres = (Retorna texto, mundo_tres)
    /\ valores texto = [9; 9]%float
    /\ inteiros texto = [3; 1]%Z.
Proof.
  exact (resumo_mostra mundo_tres 2 pedido_caio eq_refl).
Defined.

(** ** The demonstration, from any world *)





Section Vivo.

Variables (w : Mundo) (self : nat) (p0 : Pedido.t).
Hypothesis vivo : objetos w !! self = Some p0.












End Vivo.


